(** * Healthchievements: the personalised tip generator of health-tips.js

    A shallow embedding of [generatePersonalTips] and of the ECMAScript
    built-ins it calls ([parseFloat], [Math.round], [Number.prototype.toFixed],
    the conversions ToBoolean, ToNumber and ToString, and [+] on strings).

    - A JS Number is an IEEE 754 binary64 value: [spec_float] with the
      operations of [SpecFloat] at precision 53 and maximal exponent 1024.
    - A JS String is a [string]; the non-ASCII text of the source (emoji,
      dashes) is kept as its UTF-8 bytes.
    - A log entry is a record of the five properties the function reads; a
      property holds a primitive value: undefined when it is not there,
      null, a boolean, a Number or a String.
    - [tips.push] is explicit state passing on a list.
    - [Checked] is the function again on an array of any values of JSON
      (null, arrays and objects among them), with the TypeError that a read
      on null or the conversion of an object can throw as an outcome. *)

From Corelib Require Import SpecFloat.
From Stdlib Require Import ZArith NArith PArith Arith List Bool Ascii String Lia.
From Stdlib Require Import DecimalString.
Import ListNotations.

Local Open Scope string_scope.

(** ** Decimal digits *)

Module Digits.

(** The decimal digits of a natural number, without leading zeros ("0" for 0). *)
Definition of_N (n : N) : string :=
  NilEmpty.string_of_uint (N.to_uint n).

Definition of_Z (n : Z) : string := of_N (Z.to_N n).

(** Number of decimal digits of a positive integer. *)
Definition count (n : Z) : Z := Z.of_nat (String.length (of_Z n)).

Fixpoint zeros (n : nat) : string :=
  match n with
  | O => ""
  | S n' => String "0" (zeros n')
  end.

Fixpoint take (n : nat) (s : string) : string :=
  match n, s with
  | S n', String c r => String c (take n' r)
  | _, _ => ""
  end.

Fixpoint drop (n : nat) (s : string) : string :=
  match n, s with
  | S n', String _ r => drop n' r
  | _, _ => s
  end.

End Digits.

(** ** The Number type *)

Module Number.

Local Open Scope Z_scope.

Definition prec : Z := 53.
Definition emax : Z := 1024.

Definition t : Type := spec_float.

Definition NaN : t := S754_nan.
Definition zero : t := S754_zero false.
Definition Infinity : t := S754_infinity false.

Definition add : t -> t -> t := SFadd prec emax.
Definition div : t -> t -> t := SFdiv prec emax.
Definition ltb : t -> t -> bool := SFltb.
Definition leb : t -> t -> bool := SFleb.
Definition eqb : t -> t -> bool := SFeqb.
(** [a >= b] and [a > b] are [b <= a] and [b < a]: false when either is NaN. *)
Definition geb (a b : t) : bool := SFleb b a.
Definition gtb (a b : t) : bool := SFltb b a.

Definition is_nan (x : t) : bool :=
  match x with
  | S754_nan => true
  | _ => false
  end.

(** The Number for a mathematical integer, rounded to nearest, ties to even. *)
Definition of_Z (n : Z) : t := binary_normalize prec emax n 0 false.

(** The Number nearest to the rational [num / den], with the given sign. *)
Definition of_ratio (neg : bool) (num den : positive) : t :=
  SFdiv prec emax (S754_finite neg num 0) (S754_finite false den 0).

(** The Number for the decimal [m * 10^e]: the value of a numeric literal
    and of the text read by [parseFloat]. *)
Definition of_decimal (neg : bool) (m : N) (e : Z) : t :=
  match m with
  | N0 => S754_zero neg
  | Npos p =>
      match e with
      | Zneg k => of_ratio neg p (10 ^ k)
      | _ => of_ratio neg (p * Z.to_pos (10 ^ e)) 1
      end
  end.

(** A positive finite Number [m * 2^e] as a fraction of two positive integers. *)
Definition fraction (m : positive) (e : Z) : Z * Z :=
  match e with
  | Zneg k => (Zpos m, Zpos (2 ^ k))
  | _ => (Zpos m * 2 ^ e, 1)
  end.

(** [Math.round]: the nearest integer, a tie going towards +Infinity; the
    sign of a zero result is the sign of the argument. *)
Definition round (x : t) : t :=
  match x with
  | S754_finite s m (Zneg k) =>
      let n := Z.shiftr (2 * cond_Zopp s (Zpos m) + Zpos (2 ^ k)) (Zpos k + 1) in
      match n with
      | Z0 => S754_zero s
      | _ => of_Z n
      end
  | _ => x
  end.

(** *** Number::toString, radix 10 *)

(** [n0] with [10^(n0-1) <= p/q < 10^n0]. *)
Definition magnitude10 (p q : Z) : Z :=
  if q <=? p then Digits.count (p / q)
  else
    let t := Digits.count (q / p) in
    if p * 10 ^ (t - 1) =? q then 2 - t else 1 - t.

(** [p/q * 10^j] as a quotient, a remainder and the divisor. *)
Definition scale10 (p q j : Z) : Z * Z * Z :=
  match j with
  | Zneg k => let d := q * Zpos (10 ^ k) in (p / d, p mod d, d)
  | _ => let n := p * 10 ^ j in (n / q, n mod q, q)
  end.

(** The candidates with [k] digits on both sides of [x = p/q]; a candidate
    qualifies when it converts back to [x], the nearer one wins, a tie goes
    to the even one. *)
Definition shortest_at (x : t) (p q n0 k : Z) : option (Z * Z) :=
  let '(lo, r, d) := scale10 p q (k - n0) in
  let hi := lo + 1 in
  let ok_lo := (0 <? lo) && eqb (of_decimal false (Z.to_N lo) (n0 - k)) x in
  let ok_hi := eqb (of_decimal false (Z.to_N hi) (n0 - k)) x in
  let pick_lo := Some (lo, n0) in
  let pick_hi := if hi =? 10 ^ k then Some (10 ^ (k - 1), n0 + 1) else Some (hi, n0) in
  match ok_lo, ok_hi with
  | true, false => pick_lo
  | false, true => pick_hi
  | false, false => None
  | true, true =>
      match 2 * r ?= d with
      | Lt => pick_lo
      | Gt => pick_hi
      | Eq => if Z.even lo then pick_lo else pick_hi
      end
  end.

(** The least [k] that has a candidate; 17 digits always identify a binary64. *)
Fixpoint shortest (fuel : nat) (x : t) (p q n0 k : Z) : Z * Z :=
  match fuel with
  | O => (fst (fst (scale10 p q (k - n0))), n0)
  | S fuel' =>
      match shortest_at x p q n0 k with
      | Some sn => sn
      | None => shortest fuel' x p q n0 (k + 1)
      end
  end.

(** The digits [s] and the exponent [n] of Number::toString: the value is
    [0.s * 10^n]. *)
Definition digits_exponent (m : positive) (e : Z) : Z * Z :=
  let '(p, q) := fraction m e in
  shortest 17 (S754_finite false m e) p q (magnitude10 p q) 1.

Definition layout (s n : Z) : string :=
  let ds := Digits.of_Z s in
  let k := Z.of_nat (String.length ds) in
  if (k <=? n) && (n <=? 21) then
    ds ++ Digits.zeros (Z.to_nat (n - k))
  else if (0 <? n) && (n <=? 21) then
    Digits.take (Z.to_nat n) ds ++ "." ++ Digits.drop (Z.to_nat n) ds
  else if (-6 <? n) && (n <=? 0) then
    "0." ++ Digits.zeros (Z.to_nat (- n)) ++ ds
  else
    let ex := (if 0 <? n - 1 then "+" else "-") ++ Digits.of_Z (Z.abs (n - 1)) in
    if k =? 1 then ds ++ "e" ++ ex
    else Digits.take 1 ds ++ "." ++ Digits.drop 1 ds ++ "e" ++ ex.

Definition toString (x : t) : string :=
  match x with
  | S754_nan => "NaN"
  | S754_zero _ => "0"
  | S754_infinity s => if s then "-Infinity" else "Infinity"
  | S754_finite s m e =>
      let '(d, n) := digits_exponent m e in
      (if s then "-" else "") ++ layout d n
  end.

(** *** Number.prototype.toFixed(1) *)

Definition toFixed1 (x : t) : string :=
  match x with
  | S754_finite s m e =>
      let '(p, q) := fraction m e in
      if 10 ^ 21 * q <=? p then
        (if s then "-" else "") ++ toString (S754_finite false m e)
      else
        let n := (20 * p + q) / (2 * q) in
        let ds := Digits.of_Z n in
        let ds := if (String.length ds <=? 1)%nat then "0" ++ ds else ds in
        let k := String.length ds in
        (if s then "-" else "")
          ++ Digits.take (k - 1) ds ++ "." ++ Digits.drop (k - 1) ds
  | S754_zero _ => "0.0"
  | _ => toString x
  end.

End Number.

(** ** Reading numbers from text *)

Module Text.

Local Open Scope Z_scope.

Definition code (c : ascii) : N := N_of_ascii c.

Definition digit_in (base : N) (c : ascii) : option N :=
  let n := code c in
  let v :=
    if (48 <=? n)%N && (n <=? 57)%N then Some (n - 48)%N
    else if (97 <=? n)%N && (n <=? 102)%N then Some (n - 87)%N
    else if (65 <=? n)%N && (n <=? 70)%N then Some (n - 55)%N
    else None in
  match v with
  | Some d => if (d <? base)%N then Some d else None
  | None => None
  end.

(** The longest run of digits at the front of [s]: the number read (after
    [acc]), how many digits were read, and the rest of [s]. *)
Fixpoint digits_prefix (base : N) (s : string) (acc : N) (cnt : Z)
  : N * Z * string :=
  match s with
  | String c r =>
      match digit_in base c with
      | Some d => digits_prefix base r (base * acc + d)%N (cnt + 1)
      | None => (acc, cnt, s)
      end
  | EmptyString => (acc, cnt, s)
  end.

(** WhiteSpace and LineTerminator: the ASCII ones, and the UTF-8 bytes of
    U+00A0, U+1680, U+2000..U+200A, U+2028, U+2029, U+202F, U+205F, U+3000
    and U+FEFF. [trim_start] removes them from the front. *)
Definition ascii_space (c : ascii) : bool :=
  let n := code c in
  ((9 <=? n)%N && (n <=? 13)%N) || (n =? 32)%N.

Fixpoint trim_start (s : string) : string :=
  match s with
  | String c r =>
      if ascii_space c then trim_start r
      else
        match code c, r with
        | 194%N, String c1 r1 =>
            if (code c1 =? 160)%N then trim_start r1 else s
        | 225%N, String c1 (String c2 r2) =>
            if (code c1 =? 154)%N && (code c2 =? 128)%N then trim_start r2
            else s
        | 226%N, String c1 (String c2 r2) =>
            let n1 := code c1 in
            let n2 := code c2 in
            if ((n1 =? 128)%N
                && (((128 <=? n2)%N && (n2 <=? 138)%N)
                    || (n2 =? 168)%N || (n2 =? 169)%N || (n2 =? 175)%N))
               || ((n1 =? 129)%N && (n2 =? 159)%N)
            then trim_start r2
            else s
        | 227%N, String c1 (String c2 r2) =>
            if (code c1 =? 128)%N && (code c2 =? 128)%N then trim_start r2
            else s
        | 239%N, String c1 (String c2 r2) =>
            if (code c1 =? 187)%N && (code c2 =? 191)%N then trim_start r2
            else s
        | _, _ => s
        end
  | EmptyString => s
  end.

Fixpoint trim_end (s : string) : string :=
  match s with
  | String c r =>
      match trim_start s with
      | EmptyString => EmptyString
      | _ => String c (trim_end r)
      end
  | EmptyString => s
  end.

Definition trim (s : string) : string := trim_end (trim_start s).

(** ExponentPart: [e] or [E], a sign or none, at least one digit; when the
    text has none, the exponent is 0 and nothing is read. *)
Definition exponent_part (s : string) : Z * string :=
  match s with
  | String c r =>
      if (code c =? 101)%N || (code c =? 69)%N then
        let '(neg, r1) :=
          match r with
          | String "+" r' => (false, r')
          | String "-" r' => (true, r')
          | _ => (false, r)
          end in
        let '(v, cnt, r2) := digits_prefix 10 r1 0 0 in
        if cnt =? 0 then (0, s)
        else (cond_Zopp neg (Z.of_N v), r2)
      else (0, s)
  | EmptyString => (0, s)
  end.

(** The longest prefix that is a StrUnsignedDecimalLiteral, its value with
    the sign [neg], and the rest of the text. *)
Definition unsigned_decimal (neg : bool) (s : string)
  : option (Number.t * string) :=
  if String.prefix "Infinity" s then
    Some (S754_infinity neg, Digits.drop 8 s)
  else
    let '(i, ci, r1) := digits_prefix 10 s 0 0 in
    let '(m, cf, r2) :=
      match r1 with
      | String "." r' => digits_prefix 10 r' i 0
      | _ => (i, 0, r1)
      end in
    if (ci =? 0) && (cf =? 0) then None
    else
      let '(ex, r3) := exponent_part r2 in
      Some (Number.of_decimal neg m (ex - cf), r3).

(** StrDecimalLiteral: a sign or none, then the unsigned literal. *)
Definition decimal_prefix (s : string) : option (Number.t * string) :=
  match s with
  | String "+" r => unsigned_decimal false r
  | String "-" r => unsigned_decimal true r
  | _ => unsigned_decimal false s
  end.

(** NonDecimalIntegerLiteral: 0x, 0o or 0b and digits of that base. *)
Definition radix_literal (s : string) : option (Number.t * string) :=
  match s with
  | String "0" (String c r) =>
      let n := code c in
      let base :=
        if (n =? 120)%N || (n =? 88)%N then Some 16%N
        else if (n =? 111)%N || (n =? 79)%N then Some 8%N
        else if (n =? 98)%N || (n =? 66)%N then Some 2%N
        else None in
      match base with
      | Some b =>
          let '(v, cnt, r') := digits_prefix b r 0 0 in
          if cnt =? 0 then None else Some (Number.of_Z (Z.of_N v), r')
      | None => None
      end
  | _ => None
  end.

(** [parseFloat] on a String: the leading white space is dropped and the
    longest decimal literal at the front is read; NaN when there is none. *)
Definition parseFloat (s : string) : Number.t :=
  match decimal_prefix (trim_start s) with
  | Some (x, _) => x
  | None => Number.NaN
  end.

(** StringToNumber: the whole trimmed text has to be one numeric literal;
    the empty text is +0. *)
Definition toNumber (s : string) : Number.t :=
  match trim s with
  | EmptyString => Number.zero
  | t =>
      match radix_literal t with
      | Some (x, EmptyString) => x
      | _ =>
          match decimal_prefix t with
          | Some (x, EmptyString) => x
          | _ => Number.NaN
          end
      end
  end.

End Text.

(** ** Values and conversions *)

Inductive value : Type :=
  | JUndefined
  | JNull
  | JBool (b : bool)
  | JNum (x : Number.t)
  | JStr (s : string).

Definition ToBoolean (v : value) : bool :=
  match v with
  | JUndefined | JNull => false
  | JBool b => b
  | JNum (S754_zero _) | JNum S754_nan => false
  | JNum _ => true
  | JStr EmptyString => false
  | JStr _ => true
  end.

Definition ToString (v : value) : string :=
  match v with
  | JUndefined => "undefined"
  | JNull => "null"
  | JBool true => "true"
  | JBool false => "false"
  | JNum x => Number.toString x
  | JStr s => s
  end.

Definition ToNumber (v : value) : Number.t :=
  match v with
  | JUndefined => Number.NaN
  | JNull => Number.zero
  | JBool true => Number.of_Z 1
  | JBool false => Number.zero
  | JNum x => x
  | JStr s => Text.toNumber s
  end.

(** The global [parseFloat]: its argument is converted to a String first. *)
Definition parseFloat (v : value) : Number.t := Text.parseFloat (ToString v).

(** [v !== 'text'] *)
Definition strict_neq_string (v : value) (s : string) : bool :=
  match v with
  | JStr s' => negb (String.eqb s' s)
  | _ => true
  end.

(** [v < n] and [v > n] against a Number: [v] goes through ToNumber. *)
Definition lt_number (v : value) (n : Number.t) : bool :=
  Number.ltb (ToNumber v) n.
Definition gt_number (v : value) (n : Number.t) : bool :=
  Number.gtb (ToNumber v) n.

(** ** Log entries and tips *)

(** The properties of a log entry that [generatePersonalTips] reads. *)
Record Entry : Type := {
  bmi : value;
  sleepHours : value;
  heartRate : value;
  cycleTracking : value;
  cycleLength : value
}.

(** A tip object: [type] is 'good', 'warning', 'alert' or 'info'. *)
Record Tip : Type := {
  type : string;
  icon : string;
  title : string;
  body : string
}.

(** The double quote inside a text. *)
Definition dq : string := String (ascii_of_nat 34) EmptyString.

(** Numeric literals of the source. *)
Definition n18_5 : Number.t := Eval vm_compute in Number.of_decimal false 185 (-1).
Definition n25 : Number.t := Eval vm_compute in Number.of_Z 25.
Definition n30 : Number.t := Eval vm_compute in Number.of_Z 30.
Definition n6 : Number.t := Eval vm_compute in Number.of_Z 6.
Definition n7 : Number.t := Eval vm_compute in Number.of_Z 7.
Definition n9 : Number.t := Eval vm_compute in Number.of_Z 9.
Definition n60 : Number.t := Eval vm_compute in Number.of_Z 60.
Definition n100 : Number.t := Eval vm_compute in Number.of_Z 100.
Definition n21 : Number.t := Eval vm_compute in Number.of_Z 21.
Definition n35 : Number.t := Eval vm_compute in Number.of_Z 35.

(** *** The fourteen tip objects of the source *)

Definition tip_bmi_under (b : Number.t) : Tip := {|
  type := "warning";
  icon := "🍎";
  title := "Nutrition Power-Up Needed!";
  body := "Your BMI (" ++ Number.toString b ++ ") shows you might be underweight. Try adding more nutrient-rich foods to your daily rations — think nuts, avocados, whole grains, and lean proteins. Small, frequent meals can help you gain healthy weight. Consider consulting a healer (doctor) for a personalised nutrition quest!"
|}.

Definition tip_bmi_normal (b : Number.t) : Tip := {|
  type := "good";
  icon := "🏆";
  title := "BMI — Perfectly Balanced!";
  body := "Amazing work, hero! Your BMI (" ++ Number.toString b ++ ") is in the healthy range. Keep up your current eating and exercise habits to maintain this awesome stat. You've unlocked the " ++ dq ++ "Balance Master" ++ dq ++ " achievement in our hearts!"
|}.

Definition tip_bmi_over (b : Number.t) : Tip := {|
  type := "warning";
  icon := "🏃";
  title := "Training Montage Recommended!";
  body := "Your BMI (" ++ Number.toString b ++ ") is slightly above the healthy range. Time for a training montage! Try adding 30 minutes of movement to your daily routine — walking, swimming, cycling, or dancing all count. Small changes to portion sizes can also make a big difference on this quest."
|}.

Definition tip_bmi_obese (b : Number.t) : Tip := {|
  type := "alert";
  icon := "⚠️";
  title := "Critical Quest: Weight Management";
  body := "Your BMI (" ++ Number.toString b ++ ") is in the obese range. This is a tough boss battle, but you can win! Start with small goals — even a 5% weight reduction brings huge health bonuses. Please consider visiting a healer (doctor) who can create a personalised strategy for your journey."
|}.

Definition tip_sleep_low (avgSleep : Number.t) : Tip := {|
  type := "alert";
  icon := "😴";
  title := "Critical! Sleep HP is Low!";
  body := "You're averaging only " ++ Number.toFixed1 avgSleep ++ " hours of sleep. Your character needs 7-9 hours to fully regenerate! Poor sleep weakens your immune defence, slows down XP gain, and makes boss fights (daily challenges) much harder. Try setting a " ++ dq ++ "lights out" ++ dq ++ " alarm 8 hours before you need to wake up."
|}.

Definition tip_sleep_almost (avgSleep : Number.t) : Tip := {|
  type := "warning";
  icon := "🛌";
  title := "Sleep Buff Almost There!";
  body := "You're getting " ++ Number.toFixed1 avgSleep ++ " hours on average — close to the recommended 7-9 hours! Try going to bed just 30 minutes earlier. Avoid screen time (the blue light debuff!) before bed, and keep your sleeping chamber cool and dark for maximum rest bonus."
|}.

Definition tip_sleep_good (avgSleep : Number.t) : Tip := {|
  type := "good";
  icon := "✨";
  title := "Sleep Master Achievement!";
  body := "Excellent! You're averaging " ++ Number.toFixed1 avgSleep ++ " hours of sleep — right in the sweet spot! Quality rest gives you bonus HP regeneration, better focus stats, and stronger immune defence. Keep this up, champion!"
|}.

Definition tip_sleep_over (avgSleep : Number.t) : Tip := {|
  type := "warning";
  icon := "⏰";
  title := "Oversleep Warning!";
  body := "You're averaging " ++ Number.toFixed1 avgSleep ++ " hours — that's more than the recommended 7-9 hours. Too much sleep can actually lower your energy stats! If you're feeling constantly tired despite long rest, consider checking with a healer, as it might signal an underlying debuff."
|}.

Definition tip_hr_low (hr : Number.t) : Tip := {|
  type := "info";
  icon := "💓";
  title := "Low Resting Heart Rate";
  body := "Your average heart rate is " ++ Number.toString hr ++ " bpm. If you're athletic, this could be a sign of great cardiovascular fitness — an S-tier passive ability! However, if you're not very active or feel dizzy/tired, it's worth mentioning to your healer (doctor)."
|}.

Definition tip_hr_normal (hr : Number.t) : Tip := {|
  type := "good";
  icon := "💚";
  title := "Heart Rate — Optimal Zone!";
  body := "Your average heart rate of " ++ Number.toString hr ++ " bpm is in the normal resting range (60-100 bpm). Your heart is performing well! Regular cardio exercise (the " ++ dq ++ "Endurance Training" ++ dq ++ " side quest) can help keep it even stronger."
|}.

Definition tip_hr_high (hr : Number.t) : Tip := {|
  type := "alert";
  icon := "❤️‍🔥";
  title := "Heart Rate Running High!";
  body := "Your average heart rate is " ++ Number.toString hr ++ " bpm, which is above the normal resting range. Stress, caffeine, and lack of exercise can cause this. Try deep breathing exercises (the " ++ dq ++ "Meditation" ++ dq ++ " skill), reduce caffeine potions, and add light exercise to your daily routine. If it stays high, please visit a healer!"
|}.

Definition tip_cycle_active : Tip := {|
  type := "info";
  icon := "🌸";
  title := "Cycle Tracking Active!";
  body := "Great job tracking your cycle! Regular tracking helps you understand your body's patterns and predict changes in energy, mood, and physical performance. During your period, your iron levels may drop — combat this with iron-rich foods like spinach, red meat, or fortified cereals (HP restoration items!)."
|}.

Definition tip_cycle_length (len : value) : Tip := {|
  type := "warning";
  icon := "📊";
  title := "Cycle Length — Worth Checking";
  body := "Your recorded cycle length of " ++ ToString len ++ " days is outside the typical 21-35 day range. This isn't always a problem (everyone's different!), but if it's consistently irregular, it's a good idea to chat with a healer (doctor) about it. They can check for any hidden debuffs."
|}.

Definition tip_consistency (count : nat) : Tip := {|
  type := "good";
  icon := "🔥";
  title := "Streak Bonus Active!";
  body := "You've logged " ++ Digits.of_N (N.of_nat count) ++ " quests so far — consistency is the most powerful buff in the game! Regular tracking helps you spot trends, catch problems early, and see your progress over time. Keep logging to unlock more achievements!"
|}.

(** ** generatePersonalTips *)

(** [tips.push(t)] *)
Definition push (tips : list Tip) (t : Tip) : list Tip := tips ++ [t].

(** The four accumulators of the loop. The two counters are whole numbers
    below 2^32, the bound on the length of an array, which a Number holds
    exactly: they are kept as [N] and converted where they divide. *)
Record Sums : Type := {
  totalSleep : Number.t;
  sleepCount : N;
  totalHR : Number.t;
  hrCount : N
}.

Definition sums0 : Sums :=
  {| totalSleep := Number.zero; sleepCount := 0;
     totalHR := Number.zero; hrCount := 0 |}.

(** One turn of the loop over the entries. *)
Definition add_entry (acc : Sums) (e : Entry) : Sums :=
  let acc :=
    if ToBoolean (sleepHours e) then
      {| totalSleep := Number.add (totalSleep acc) (parseFloat (sleepHours e));
         sleepCount := sleepCount acc + 1;
         totalHR := totalHR acc;
         hrCount := hrCount acc |}
    else acc in
  if ToBoolean (heartRate e) then
    {| totalSleep := totalSleep acc;
       sleepCount := sleepCount acc;
       totalHR := Number.add (totalHR acc) (parseFloat (heartRate e));
       hrCount := hrCount acc + 1 |}
  else acc.

Definition sums (questLog : list Entry) : Sums :=
  fold_left add_entry questLog sums0.

(** [count > 0 ? total / count : null] *)
Definition average (total : Number.t) (count : N) : option Number.t :=
  if (0 <? count)%N then Some (Number.div total (Number.of_Z (Z.of_N count)))
  else None.

Definition avgSleep (questLog : list Entry) : option Number.t :=
  average (totalSleep (sums questLog)) (sleepCount (sums questLog)).

Definition avgHR (questLog : list Entry) : option Number.t :=
  average (totalHR (sums questLog)) (hrCount (sums questLog)).

Definition bmi_block (latest : Entry) (tips : list Tip) : list Tip :=
  if ToBoolean (bmi latest) && strict_neq_string (bmi latest) "--" then
    let b := parseFloat (bmi latest) in
    if Number.ltb b n18_5 then push tips (tip_bmi_under b)
    else if Number.geb b n18_5 && Number.ltb b n25 then
      push tips (tip_bmi_normal b)
    else if Number.geb b n25 && Number.ltb b n30 then
      push tips (tip_bmi_over b)
    else push tips (tip_bmi_obese b)
  else tips.

Definition sleep_block (avg : option Number.t) (tips : list Tip) : list Tip :=
  match avg with
  | Some a =>
      if Number.ltb a n6 then push tips (tip_sleep_low a)
      else if Number.ltb a n7 then push tips (tip_sleep_almost a)
      else if Number.leb a n9 then push tips (tip_sleep_good a)
      else push tips (tip_sleep_over a)
  | None => tips
  end.

Definition hr_block (avg : option Number.t) (tips : list Tip) : list Tip :=
  match avg with
  | Some a =>
      let hr := Number.round a in
      if Number.ltb hr n60 then push tips (tip_hr_low hr)
      else if Number.leb hr n100 then push tips (tip_hr_normal hr)
      else push tips (tip_hr_high hr)
  | None => tips
  end.

Definition cycle_block (latest : Entry) (tips : list Tip) : list Tip :=
  if ToBoolean (cycleTracking latest) then
    let tips := push tips tip_cycle_active in
    if ToBoolean (cycleLength latest)
       && (lt_number (cycleLength latest) n21
           || gt_number (cycleLength latest) n35)
    then push tips (tip_cycle_length (cycleLength latest))
    else tips
  else tips.

Definition consistency_block (length : nat) (tips : list Tip) : list Tip :=
  if (3 <=? length)%nat then push tips (tip_consistency length) else tips.

Definition generatePersonalTips (questLog : list Entry) : list Tip :=
  let tips := [] in
  match questLog with
  | [] => tips
  | first :: rest =>
      let latest := last rest first in
      let avgSleep := avgSleep questLog in
      let avgHR := avgHR questLog in
      let tips := bmi_block latest tips in
      let tips := sleep_block avgSleep tips in
      let tips := hr_block avgHR tips in
      let tips := cycle_block latest tips in
      let tips := consistency_block (List.length questLog) tips in
      tips
  end.

(** ** Vocabulary of the specification *)

(** The last element of a non-empty log: [questLog[questLog.length - 1]]. *)
Definition latest_entry (questLog : list Entry) : option Entry :=
  match questLog with
  | [] => None
  | first :: rest => Some (last rest first)
  end.

(** A property is present when the entry holds a value for it. *)
Definition present (v : value) : bool :=
  match v with
  | JUndefined | JNull => false
  | _ => true
  end.

(** A tip object does not record the category it belongs to; the titles of
    the fourteen tips of the source are distinct and tell it. *)
Inductive Category : Type :=
  | BMI | Sleep | HeartRate | CycleActive | CycleLength | Consistency.

Definition titled (t : Tip) (titles : list string) : bool :=
  existsb (String.eqb (title t)) titles.

Definition category (t : Tip) : option Category :=
  if titled t ["Nutrition Power-Up Needed!"; "BMI — Perfectly Balanced!";
               "Training Montage Recommended!";
               "Critical Quest: Weight Management"] then Some BMI
  else if titled t ["Critical! Sleep HP is Low!"; "Sleep Buff Almost There!";
                    "Sleep Master Achievement!"; "Oversleep Warning!"]
  then Some Sleep
  else if titled t ["Low Resting Heart Rate"; "Heart Rate — Optimal Zone!";
                    "Heart Rate Running High!"] then Some HeartRate
  else if titled t ["Cycle Tracking Active!"] then Some CycleActive
  else if titled t ["Cycle Length — Worth Checking"] then Some CycleLength
  else if titled t ["Streak Bonus Active!"] then Some Consistency
  else None.

Definition rank (c : Category) : nat :=
  match c with
  | BMI => 0
  | Sleep => 1
  | HeartRate => 2
  | CycleActive => 3
  | CycleLength => 4
  | Consistency => 5
  end.

(** The tips whose category passes [p], in the order they have in [tips]. *)
Definition pick (p : Category -> bool) (tips : list Tip) : list Tip :=
  filter (fun t => match category t with Some c => p c | None => false end)
         tips.

Definition same_category (c c' : Category) : bool :=
  Nat.eqb (rank c) (rank c').

(** The tips of one category. *)
Definition select (c : Category) (tips : list Tip) : list Tip :=
  pick (same_category c) tips.

(** The two cycle categories together. *)
Definition is_cycle (c : Category) : bool :=
  match c with
  | CycleActive | CycleLength => true
  | _ => false
  end.

(** [sub] occurs somewhere in [s]. *)
Fixpoint contains (sub s : string) : bool :=
  match s with
  | EmptyString => String.prefix sub s
  | String _ r => String.prefix sub s || contains sub r
  end.

(** The mean as the loop computes it: the sum from +0, left to right,
    divided by the count; [None] for [null] when there is nothing to sum. *)
Definition mean (xs : list Number.t) : option Number.t :=
  match xs with
  | [] => None
  | _ =>
      Some (Number.div (fold_left Number.add xs Number.zero)
                       (Number.of_Z (Z.of_nat (List.length xs))))
  end.

(** The values of a property over the entries that pass [keep]. *)
Definition readings (field : Entry -> value) (keep : value -> bool)
  (questLog : list Entry) : list Number.t :=
  map (fun e => parseFloat (field e))
      (filter (fun e => keep (field e)) questLog).

(** A present value that fails numeric coercion. *)
Definition malformed (v : value) : bool :=
  present v && Number.is_nan (parseFloat v).

(** The entry with its malformed numeric properties taken away. *)
Definition without_malformed (e : Entry) : Entry :=
  let clean v := if malformed v then JUndefined else v in
  {| bmi := clean (bmi e);
     sleepHours := clean (sleepHours e);
     heartRate := clean (heartRate e);
     cycleTracking := cycleTracking e;
     cycleLength := cycleLength e |}.

(** Entries for examples: one property set, the others not there. *)
Definition blank : Entry :=
  {| bmi := JUndefined; sleepHours := JUndefined; heartRate := JUndefined;
     cycleTracking := JUndefined; cycleLength := JUndefined |}.

Definition with_bmi (v : value) : Entry :=
  {| bmi := v; sleepHours := JUndefined; heartRate := JUndefined;
     cycleTracking := JUndefined; cycleLength := JUndefined |}.

Definition with_sleep (v : value) : Entry :=
  {| bmi := JUndefined; sleepHours := v; heartRate := JUndefined;
     cycleTracking := JUndefined; cycleLength := JUndefined |}.

Definition with_heart (v : value) : Entry :=
  {| bmi := JUndefined; sleepHours := JUndefined; heartRate := v;
     cycleTracking := JUndefined; cycleLength := JUndefined |}.

Definition with_cycle (tracking len : value) : Entry :=
  {| bmi := JUndefined; sleepHours := JUndefined; heartRate := JUndefined;
     cycleTracking := tracking; cycleLength := len |}.

(** A numeric literal [m * 10^e] as a value. *)
Definition lit (m : N) (e : Z) : value := JNum (Number.of_decimal false m e).

(** ** The order of Numbers, as a relation *)

Module Order.

Local Open Scope Z_scope.

(** A Number that is not NaN, as a triple ordered lexicographically. *)
Definition key (x : Number.t) : option (Z * Z * Z) :=
  match x with
  | S754_nan => None
  | S754_infinity true => Some (-2, 0, 0)
  | S754_infinity false => Some (2, 0, 0)
  | S754_zero _ => Some (0, 0, 0)
  | S754_finite false m e => Some (1, e, Zpos m)
  | S754_finite true m e => Some (-1, - e, Zneg m)
  end.

Definition lt (x y : Number.t) : Prop :=
  match key x, key y with
  | Some (c1, e1, m1), Some (c2, e2, m2) =>
      c1 < c2 \/ (c1 = c2 /\ (e1 < e2 \/ (e1 = e2 /\ m1 < m2)))
  | _, _ => False
  end.

Definition le (x y : Number.t) : Prop :=
  match key x, key y with
  | Some (c1, e1, m1), Some (c2, e2, m2) =>
      c1 < c2 \/ (c1 = c2 /\ (e1 < e2 \/ (e1 = e2 /\ m1 <= m2)))
  | _, _ => False
  end.

End Order.

(** ** The tips of each block *)

(** The tip a block appends, by the branch taken. *)
Definition bmi_tip (b : Number.t) : Tip :=
  if Number.ltb b n18_5 then tip_bmi_under b
  else if Number.geb b n18_5 && Number.ltb b n25 then tip_bmi_normal b
  else if Number.geb b n25 && Number.ltb b n30 then tip_bmi_over b
  else tip_bmi_obese b.

Definition sleep_tip (a : Number.t) : Tip :=
  if Number.ltb a n6 then tip_sleep_low a
  else if Number.ltb a n7 then tip_sleep_almost a
  else if Number.leb a n9 then tip_sleep_good a
  else tip_sleep_over a.

Definition hr_tip (hr : Number.t) : Tip :=
  if Number.ltb hr n60 then tip_hr_low hr
  else if Number.leb hr n100 then tip_hr_normal hr
  else tip_hr_high hr.

(** What each block appends to the array: no tip when its test fails. The
    cycle block is split in its two tips. *)
Definition bmi_part (latest : Entry) : list Tip :=
  if ToBoolean (bmi latest) && strict_neq_string (bmi latest) "--"
  then [bmi_tip (parseFloat (bmi latest))] else [].

Definition sleep_part (questLog : list Entry) : list Tip :=
  match avgSleep questLog with Some a => [sleep_tip a] | None => [] end.

Definition hr_part (questLog : list Entry) : list Tip :=
  match avgHR questLog with
  | Some a => [hr_tip (Number.round a)]
  | None => []
  end.

Definition cycle_active_part (latest : Entry) : list Tip :=
  if ToBoolean (cycleTracking latest) then [tip_cycle_active] else [].

Definition cycle_length_part (latest : Entry) : list Tip :=
  if ToBoolean (cycleTracking latest)
     && (ToBoolean (cycleLength latest)
         && (lt_number (cycleLength latest) n21
             || gt_number (cycleLength latest) n35))
  then [tip_cycle_length (cycleLength latest)] else [].

Definition consistency_part (questLog : list Entry) : list Tip :=
  if (3 <=? List.length questLog)%nat
  then [tip_consistency (List.length questLog)] else [].

(** ** Statements about values and logs *)

(** A truthy value that [parseFloat] turns into NaN. *)
Definition truthy_malformed (v : value) : bool :=
  ToBoolean v && Number.is_nan (parseFloat v).

(** The latest entry has bmi [v]: one BMI tip, of severity [ty], with the
    text [shown] in its body. *)
Definition bmi_yields (v : value) (ty shown : string) : Prop :=
  forall (questLog : list Entry) (latest : Entry),
    latest_entry questLog = Some latest ->
    bmi latest = v ->
    exists t,
      select BMI (generatePersonalTips questLog) = [t]
      /\ type t = ty
      /\ contains shown (body t) = true.

(** The four values of [type]. *)
Definition type_ok (t : Tip) : Prop :=
  In (type t) ["good"; "warning"; "alert"; "info"]%string.

(** ** Logs of the examples *)

(** The log of the example against C2: a night of 0 hours, then one of 8. *)
Definition log_sleep_0_8 : list Entry :=
  [with_sleep (lit 0 0); with_sleep (lit 8 0)].

(** The log of the example against C1: a night that does not parse, then
    one of 8 hours. *)
Definition log_sleep_abc_8 : list Entry :=
  [with_sleep (JStr "abc"); with_sleep (lit 8 0)].

(** The log of the example against C3: the latest entry has bmi 0. *)
Definition log_bmi_0 : list Entry := [with_bmi (lit 0 0)].

(** The log of the example against C5: tracking on, a cycle length of 0. *)
Definition log_cycle_0 : list Entry := [with_cycle (JBool true) (lit 0 0)].

(** The log of the example for C8: every category has its test met. *)
Definition log_all : list Entry :=
  [blank; blank;
   {| bmi := lit 22 0; sleepHours := lit 8 0; heartRate := lit 70 0;
      cycleTracking := JBool true; cycleLength := lit 40 0 |}].

(** ** The function on what JSON.parse gives *)

(** A value of JSON: null, a boolean, a Number, a String, an array or an
    object. The entries of a stored log, and the values of their properties,
    can be any of these. An object is the list of its own properties; where
    a name comes twice, the first pair is the property. *)
Module Json.

#[warnings="-register-all"] Inductive t : Type :=
  | Null
  | Bool (b : bool)
  | Num (x : Number.t)
  | Str (s : string)
  | Arr (items : list t)
  | Obj (props : list (string * t)).

End Json.

(** [generatePersonalTips] once more, on an array of such values, with the
    TypeError that a property read on null or the conversion of an object to
    a primitive value can throw. *)
Module Checked.

(** How an evaluation completes: with a value, or by throwing. *)
Inductive outcome (A : Type) : Type :=
  | Normal (a : A)
  | Throw.

Arguments Normal {A} a.
Arguments Throw {A}.

Definition bind {A B : Type} (c : outcome A) (k : A -> outcome B)
  : outcome B :=
  match c with
  | Normal a => k a
  | Throw => Throw
  end.

Notation "'let*' x ':=' c 'in' k" := (bind c (fun x => k))
  (at level 10, x name, c at level 100, k at level 200).

(** The own property [name] of an object. *)
Fixpoint own (name : string) (props : list (string * Json.t))
  : option Json.t :=
  match props with
  | [] => None
  | (k, v) :: rest => if String.eqb k name then Some v else own name rest
  end.

(** [o.name], for the five names the function reads: a TypeError when [o] is
    null; the own property of an object; undefined ([None]) when the object
    has no such property and when [o] is an array, a String, a Number or a
    boolean, as no prototype has a property of one of these names. *)
Definition get (o : Json.t) (name : string) : outcome (option Json.t) :=
  match o with
  | Json.Null => Throw
  | Json.Obj props => Normal (own name props)
  | _ => Normal None
  end.

(** ToString. An object or an array goes through ToPrimitive, which calls
    its [toString]; [valueOf] gives the object back and does not count. An
    own property toString of an object of JSON holds a value that cannot be
    called, so that the conversion throws; without it,
    [Object.prototype.toString] gives the text below. An array is joined by
    [Array.prototype.join]: the texts of its elements, the empty text for
    null, with commas between them. *)
Fixpoint ToString (v : Json.t) : outcome string :=
  match v with
  | Json.Null => Normal "null"
  | Json.Bool true => Normal "true"
  | Json.Bool false => Normal "false"
  | Json.Num x => Normal (Number.toString x)
  | Json.Str s => Normal s
  | Json.Obj props =>
      match own "toString" props with
      | Some _ => Throw
      | None => Normal "[object Object]"
      end
  | Json.Arr items =>
      (fix join (items : list Json.t) : outcome string :=
         match items with
         | [] => Normal ""
         | x :: rest =>
             let* next :=
               match x with
               | Json.Null => Normal ""
               | _ => ToString x
               end in
             match rest with
             | [] => Normal next
             | _ => let* more := join rest in Normal (next ++ "," ++ more)
             end
         end) items
  end.

(** ToPrimitive on what a property read gives: an object or an array becomes
    the String of its [toString]. *)
Definition ToPrimitive (v : option Json.t) : outcome value :=
  match v with
  | None => Normal JUndefined
  | Some Json.Null => Normal JNull
  | Some (Json.Bool b) => Normal (JBool b)
  | Some (Json.Num x) => Normal (JNum x)
  | Some (Json.Str s) => Normal (JStr s)
  | Some (Json.Arr items) =>
      let* s := ToString (Json.Arr items) in Normal (JStr s)
  | Some (Json.Obj props) =>
      let* s := ToString (Json.Obj props) in Normal (JStr s)
  end.

(** ToBoolean: an object or an array is truthy. *)
Definition ToBoolean (v : option Json.t) : bool :=
  match v with
  | None | Some Json.Null => false
  | Some (Json.Bool b) => b
  | Some (Json.Num x) => ToBoolean (JNum x)
  | Some (Json.Str s) => ToBoolean (JStr s)
  | Some (Json.Arr _) | Some (Json.Obj _) => true
  end.

Definition parseFloat (v : option Json.t) : outcome Number.t :=
  let* p := ToPrimitive v in Normal (parseFloat p).

(** [v !== 'text']: no conversion. *)
Definition strict_neq_string (v : option Json.t) (s : string) : bool :=
  match v with
  | Some (Json.Str s') => negb (String.eqb s' s)
  | _ => true
  end.

(** [v < n] and [v > n]: [v] goes through ToPrimitive, then ToNumber. *)
Definition lt_number (v : option Json.t) (n : Number.t) : outcome bool :=
  let* p := ToPrimitive v in Normal (lt_number p n).
Definition gt_number (v : option Json.t) (n : Number.t) : outcome bool :=
  let* p := ToPrimitive v in Normal (gt_number p n).

(** One turn of the loop. The source reads each property twice, in the test
    and in the call; a data property gives the same value both times. *)
Definition add_entry (acc : Sums) (entry : Json.t) : outcome Sums :=
  let* sleep := get entry "sleepHours" in
  let* acc :=
    if ToBoolean sleep then
      let* hours := parseFloat sleep in
      Normal {| totalSleep := Number.add (totalSleep acc) hours;
                sleepCount := sleepCount acc + 1;
                totalHR := totalHR acc;
                hrCount := hrCount acc |}
    else Normal acc in
  let* heart := get entry "heartRate" in
  if ToBoolean heart then
    let* rate := parseFloat heart in
    Normal {| totalSleep := totalSleep acc;
              sleepCount := sleepCount acc;
              totalHR := Number.add (totalHR acc) rate;
              hrCount := hrCount acc + 1 |}
  else Normal acc.

Definition sums (questLog : list Json.t) : outcome Sums :=
  fold_left (fun acc entry => let* acc := acc in add_entry acc entry)
            questLog (Normal sums0).

Definition bmi_block (latest : Json.t) (tips : list Tip)
  : outcome (list Tip) :=
  let* v := get latest "bmi" in
  if ToBoolean v && strict_neq_string v "--" then
    let* b := parseFloat v in
    if Number.ltb b n18_5 then Normal (push tips (tip_bmi_under b))
    else if Number.geb b n18_5 && Number.ltb b n25 then
      Normal (push tips (tip_bmi_normal b))
    else if Number.geb b n25 && Number.ltb b n30 then
      Normal (push tips (tip_bmi_over b))
    else Normal (push tips (tip_bmi_obese b))
  else Normal tips.

(** In the text of the tip, [+] takes the cycle length through ToPrimitive
    and ToString. *)
Definition cycle_block (latest : Json.t) (tips : list Tip)
  : outcome (list Tip) :=
  let* tracking := get latest "cycleTracking" in
  if ToBoolean tracking then
    let tips := push tips tip_cycle_active in
    let* len := get latest "cycleLength" in
    let* outside :=
      if ToBoolean len then
        let* below := lt_number len n21 in
        if below then Normal true else gt_number len n35
      else Normal false in
    if outside then
      let* shown := ToPrimitive len in
      Normal (push tips (tip_cycle_length shown))
    else Normal tips
  else Normal tips.

Definition generatePersonalTips (questLog : list Json.t)
  : outcome (list Tip) :=
  let tips := [] in
  match questLog with
  | [] => Normal tips
  | first :: rest =>
      let latest := last rest first in
      let* s := sums questLog in
      let avgSleep := average (totalSleep s) (sleepCount s) in
      let avgHR := average (totalHR s) (hrCount s) in
      let* tips := bmi_block latest tips in
      let tips := sleep_block avgSleep tips in
      let tips := hr_block avgHR tips in
      let* tips := cycle_block latest tips in
      let tips := consistency_block (List.length questLog) tips in
      Normal tips
  end.

End Checked.

(** A value whose conversion to a String finds a [toString] to call: not an
    object with an own property toString, nor an array with such an object
    among its elements, at any depth. *)
Fixpoint printable (v : Json.t) : bool :=
  match v with
  | Json.Obj props =>
      match Checked.own "toString" props with
      | Some _ => false
      | None => true
      end
  | Json.Arr items => forallb printable items
  | _ => true
  end.

(** The property [name] of [entry] can be read and converted: the entry is
    not null and the value, if there is one, is printable. *)
Definition readable (entry : Json.t) (name : string) : bool :=
  match entry with
  | Json.Null => false
  | Json.Obj props =>
      match Checked.own name props with
      | Some v => printable v
      | None => true
      end
  | _ => true
  end.

(** The four properties the function converts. *)
Definition safe_entry (entry : Json.t) : bool :=
  readable entry "bmi" && readable entry "sleepHours"
  && readable entry "heartRate" && readable entry "cycleLength".

(** The values and entries of the first embedding among those of JSON: an
    entry is an object, and a property that is undefined is not there. *)
Definition json_of_value (v : value) : option Json.t :=
  match v with
  | JUndefined => None
  | JNull => Some Json.Null
  | JBool b => Some (Json.Bool b)
  | JNum x => Some (Json.Num x)
  | JStr s => Some (Json.Str s)
  end.

Definition prop (name : string) (v : value) : list (string * Json.t) :=
  match json_of_value v with
  | Some j => [(name, j)]
  | None => []
  end.

Definition json_of_entry (e : Entry) : Json.t :=
  Json.Obj (prop "bmi" (bmi e)
            ++ prop "sleepHours" (sleepHours e)
            ++ prop "heartRate" (heartRate e)
            ++ prop "cycleTracking" (cycleTracking e)
            ++ prop "cycleLength" (cycleLength e))%list.

(** A value the tests of the source let through: truthy and, for bmi, not
    the text '--'. The entry with the other values taken away. *)
Definition without_falsy (e : Entry) : Entry :=
  let kept v := if ToBoolean v then v else JUndefined in
  {| bmi := if ToBoolean (bmi e) && strict_neq_string (bmi e) "--"
            then bmi e else JUndefined;
     sleepHours := kept (sleepHours e);
     heartRate := kept (heartRate e);
     cycleTracking := kept (cycleTracking e);
     cycleLength := kept (cycleLength e) |}.

(** The logs of the examples of a TypeError: a null entry after one whose
    sleepHours does not parse; sleepHours an object with a property toString;
    and a log where sleepHours is an object without one. *)
Definition log_abc_null : list Json.t :=
  [Json.Obj [("sleepHours", Json.Str "abc")]; Json.Null].

Definition log_sleep_toString : list Json.t :=
  [Json.Obj [("sleepHours", Json.Obj [("toString", Json.Num (Number.of_Z 1))])]].

Definition log_sleep_object : list Json.t :=
  [Json.Obj [("sleepHours", Json.Obj [])]].

(** Equality by value of two values of JSON: the same primitive value;
    arrays of the same length whose elements are equal by value; objects
    with the same properties, equal by value, in whatever order the two
    lists give them. *)
#[warnings="-register-all"] Inductive same_value : Json.t -> Json.t -> Prop :=
  | same_null : same_value Json.Null Json.Null
  | same_bool (b : bool) : same_value (Json.Bool b) (Json.Bool b)
  | same_num (x : Number.t) : same_value (Json.Num x) (Json.Num x)
  | same_str (s : string) : same_value (Json.Str s) (Json.Str s)
  | same_arr (items1 items2 : list Json.t) :
      Forall2 same_value items1 items2 ->
      same_value (Json.Arr items1) (Json.Arr items2)
  | same_obj (props1 props2 : list (string * Json.t)) :
      (forall name : string,
          same_property (Checked.own name props1) (Checked.own name props2)) ->
      same_value (Json.Obj props1) (Json.Obj props2)
with same_property : option Json.t -> option Json.t -> Prop :=
  | same_absent : same_property None None
  | same_present (v1 v2 : Json.t) :
      same_value v1 v2 -> same_property (Some v1) (Some v2).

(** Two logs that are equal by value and not as lists of pairs: the
    properties of the first entry come in another order. *)
Definition log_by_value_1 : list Json.t :=
  [Json.Obj [("date", Json.Str "2024-05-01");
             ("sleepHours", Json.Str "7.5");
             ("heartRate", Json.Num (Number.of_Z 70))];
   Json.Obj [("bmi", Json.Num (Number.of_Z 22))]].

Definition log_by_value_2 : list Json.t :=
  [Json.Obj [("heartRate", Json.Num (Number.of_Z 70));
             ("sleepHours", Json.Str "7.5");
             ("date", Json.Str "2024-05-01")];
   Json.Obj [("bmi", Json.Num (Number.of_Z 22))]].

(** ** The page: generalTips and loadTips *)

(** A general tip: an object with no [type]. *)
Module General.

Record tip : Type := {
  icon : string;
  title : string;
  body : string
}.

End General.

Definition generalTips : list General.tip := [
  {| General.icon := "💧";
     General.title := "Hydration Potion";
     General.body := "Drink at least 8 glasses of water daily. Dehydration is a sneaky debuff that lowers energy, focus, and physical performance!" |};
  {| General.icon := "🥦";
     General.title := "Eat the Rainbow";
     General.body := "Fill your plate with colourful fruits and vegetables. Each colour gives different stat boosts — vitamins, minerals, and antioxidants!" |};
  {| General.icon := "🚶";
     General.title := "10K Steps Quest";
     General.body := "Aim for 10,000 steps a day. Walking is the easiest grind in the game — it boosts mood, burns calories, and strengthens your heart." |};
  {| General.icon := "🧘";
     General.title := "Meditation Skill";
     General.body := "Even 5 minutes of deep breathing or mindfulness can reduce stress, improve focus, and lower your heart rate. A powerful passive ability!" |};
  {| General.icon := "📵";
     General.title := "Screen Break Buff";
     General.body := "Every 20 minutes, look at something 20 feet away for 20 seconds (the 20-20-20 rule). Protects your eye stats from screen damage!" |};
  {| General.icon := "🏋️";
     General.title := "Strength Training";
     General.body := "Include strength exercises 2-3 times per week. Building muscle boosts metabolism, protects joints, and increases your base power stat!" |}
]%list.

(** One turn of the loop over the personal tips: the card of [tip] is
    appended to [html]. *)
Definition add_card (html : string) (tip : Tip) : string :=
  let html := html ++ "<div class=" ++ dq ++ "tip-card " ++ type tip ++ dq ++ ">" in
  let html := html ++ "  <div class=" ++ dq ++ "tip-header" ++ dq ++ ">" in
  let html := html ++ "    <span class=" ++ dq ++ "tip-icon" ++ dq ++ ">" ++ icon tip ++ "</span>" in
  let html := html ++ "    <span class=" ++ dq ++ "tip-title" ++ dq ++ ">" ++ title tip ++ "</span>" in
  let html := html ++ "    <span class=" ++ dq ++ "tip-badge badge-personal" ++ dq ++ ">⚡ Personal</span>" in
  let html := html ++ "  </div>" in
  let html := html ++ "  <div class=" ++ dq ++ "tip-body" ++ dq ++ ">" ++ body tip ++ "</div>" in
  let html := html ++ "</div>" in
  html.

(** One turn of the loop over [generalTips]. *)
Definition add_general (html : string) (gt : General.tip) : string :=
  let html := html ++ "<div class=" ++ dq ++ "general-tip" ++ dq ++ ">" in
  let html := html ++ "  <div class=" ++ dq ++ "gt-icon" ++ dq ++ ">" ++ General.icon gt ++ "</div>" in
  let html := html ++ "  <div class=" ++ dq ++ "gt-title" ++ dq ++ ">" ++ General.title gt ++ "</div>" in
  let html := html ++ "  <div class=" ++ dq ++ "gt-body" ++ dq ++ ">" ++ General.body gt ++ "</div>" in
  let html := html ++ "</div>" in
  html.

(** The text [loadTips] builds in [html] from the personal tips: the cards of
    the tips, or the empty state when there is none; then the general guide
    and the healer block. *)
Definition tips_html (personalTips : list Tip) : string :=
  let html := "" in
  let html :=
    match personalTips with
    | _ :: _ =>
        let html := html ++ "<h2 class=" ++ dq ++ "tip-section-title" ++ dq ++ ">⚡ Your Personal Power-Ups</h2>" in
        fold_left add_card personalTips html
    | [] =>
        let html := html ++ "<div class=" ++ dq ++ "empty-state" ++ dq ++ " style=" ++ dq ++ "margin-bottom: 30px;" ++ dq ++ ">" in
        let html := html ++ "  <div style=" ++ dq ++ "font-size: 40px; margin-bottom: 10px;" ++ dq ++ ">⚡</div>" in
        let html := html ++ "  <h2>No Personal Tips Yet!</h2>" in
        let html := html ++ "  <p style=" ++ dq ++ "color: var(--text-muted);" ++ dq ++ ">" in
        let html := html ++ "    Log your first health quest to get personalised power-up tips based on YOUR stats!" in
        let html := html ++ "  </p>" in
        let html := html ++ "  <a href=" ++ dq ++ "log.html" ++ dq ++ ">📝 Log Your First Quest</a>" in
        let html := html ++ "</div>" in
        html
    end in
  let html := html ++ "<h2 class=" ++ dq ++ "tip-section-title" ++ dq ++ ">📚 General Power-Up Guide</h2>" in
  let html := html ++ "<div class=" ++ dq ++ "general-tips-grid" ++ dq ++ ">" in
  let html := fold_left add_general generalTips html in
  let html := html ++ "</div>" in
  let html := html ++ "<h2 class=" ++ dq ++ "tip-section-title" ++ dq ++ ">🏥 Need a Real Healer?</h2>" in
  let html := html ++ "<div class=" ++ dq ++ "tip-card info" ++ dq ++ ">" in
  let html := html ++ "  <div class=" ++ dq ++ "tip-header" ++ dq ++ ">" in
  let html := html ++ "    <span class=" ++ dq ++ "tip-icon" ++ dq ++ ">🩺</span>" in
  let html := html ++ "    <span class=" ++ dq ++ "tip-title" ++ dq ++ ">Visit the Healer's Guild</span>" in
  let html := html ++ "  </div>" in
  let html := html ++ "  <div class=" ++ dq ++ "tip-body" ++ dq ++ ">" in
  let html := html ++ "    These tips are general guidance — for personalised medical advice, always consult a professional healer (doctor)! " in
  let html := html ++ "    Visit our alliance partners: " in
  let html := html ++ "    <a href=" ++ dq ++ "https://www.healthdirect.gov.au/australian-health-services" ++ dq ++ " target=" ++ dq ++ "_blank" ++ dq ++ " style=" ++ dq ++ "color: var(--secondary);" ++ dq ++ ">Health Direct</a> or " in
  let html := html ++ "    <a href=" ++ dq ++ "https://www.nationaltelemedicinedoctors.com/" ++ dq ++ " target=" ++ dq ++ "_blank" ++ dq ++ " style=" ++ dq ++ "color: var(--secondary);" ++ dq ++ ">National Telemedicine Doctors</a>." in
  let html := html ++ "  </div>" in
  let html := html ++ "</div>" in
  html.

(** The state [loadTips] works on: the text last assigned to [innerHTML] of
    the element with the id tipsContent, if the page has that element, and
    the item healthQuestLog of localStorage, if it is set. *)
Record Page : Type := {
  tipsContent : option string;
  healthQuestLog : option string
}.

Section LoadTips.

(** [JSON.parse] on a stored text that is either not JSON or the text of an
    array of entries, as log.html stores it: the log it decodes to, [None]
    when it throws. A text that decodes to anything else (null, a String, an
    object, an array with an entry that is no object) is outside of this
    model of the page. *)
Variable JSON_parse : string -> option (list Entry).

(** [data ? JSON.parse(data) : []]: the empty text is falsy like null. *)
Definition stored_log (data : option string) : option (list Entry) :=
  match data with
  | Some (String _ _ as text) => JSON_parse text
  | _ => Some nil
  end.

(** [loadTips]: [None] when an exception leaves it, from [JSON.parse] or
    from the assignment to [innerHTML] of a container that is null. *)
Definition loadTips (page : Page) : option Page :=
  let container := tipsContent page in
  let data := healthQuestLog page in
  match stored_log data with
  | None => None
  | Some questLog =>
      let html := tips_html (generatePersonalTips questLog) in
      match container with
      | Some _ => Some {| tipsContent := Some html; healthQuestLog := data |}
      | None => None
      end
  end.

End LoadTips.

(** ** The page, section by section *)

(** The texts of a list, one after the other. *)
Definition join (texts : list string) : string :=
  fold_right append "" texts.

Definition card_html (tip : Tip) : string := add_card "" tip.

Definition general_html (gt : General.tip) : string := add_general "" gt.

Definition personal_header : string :=
  "<h2 class=" ++ dq ++ "tip-section-title" ++ dq ++ ">⚡ Your Personal Power-Ups</h2>".

Definition empty_state_html : string :=
  "<div class=" ++ dq ++ "empty-state" ++ dq ++ " style=" ++ dq ++ "margin-bottom: 30px;" ++ dq ++ ">"
  ++ "  <div style=" ++ dq ++ "font-size: 40px; margin-bottom: 10px;" ++ dq ++ ">⚡</div>"
  ++ "  <h2>No Personal Tips Yet!</h2>"
  ++ "  <p style=" ++ dq ++ "color: var(--text-muted);" ++ dq ++ ">"
  ++ "    Log your first health quest to get personalised power-up tips based on YOUR stats!"
  ++ "  </p>"
  ++ "  <a href=" ++ dq ++ "log.html" ++ dq ++ ">📝 Log Your First Quest</a>"
  ++ "</div>".

Definition personal_section (personalTips : list Tip) : string :=
  match personalTips with
  | nil => empty_state_html
  | _ => personal_header ++ join (map card_html personalTips)
  end.

Definition general_section : string :=
  "<h2 class=" ++ dq ++ "tip-section-title" ++ dq ++ ">📚 General Power-Up Guide</h2>"
  ++ "<div class=" ++ dq ++ "general-tips-grid" ++ dq ++ ">"
  ++ join (map general_html generalTips)
  ++ "</div>".

Definition healer_section : string :=
  "<h2 class=" ++ dq ++ "tip-section-title" ++ dq ++ ">🏥 Need a Real Healer?</h2>"
  ++ "<div class=" ++ dq ++ "tip-card info" ++ dq ++ ">"
  ++ "  <div class=" ++ dq ++ "tip-header" ++ dq ++ ">"
  ++ "    <span class=" ++ dq ++ "tip-icon" ++ dq ++ ">🩺</span>"
  ++ "    <span class=" ++ dq ++ "tip-title" ++ dq ++ ">Visit the Healer's Guild</span>"
  ++ "  </div>"
  ++ "  <div class=" ++ dq ++ "tip-body" ++ dq ++ ">"
  ++ "    These tips are general guidance — for personalised medical advice, always consult a professional healer (doctor)! "
  ++ "    Visit our alliance partners: "
  ++ "    <a href=" ++ dq ++ "https://www.healthdirect.gov.au/australian-health-services" ++ dq ++ " target=" ++ dq ++ "_blank" ++ dq ++ " style=" ++ dq ++ "color: var(--secondary);" ++ dq ++ ">Health Direct</a> or "
  ++ "    <a href=" ++ dq ++ "https://www.nationaltelemedicinedoctors.com/" ++ dq ++ " target=" ++ dq ++ "_blank" ++ dq ++ " style=" ++ dq ++ "color: var(--secondary);" ++ dq ++ ">National Telemedicine Doctors</a>."
  ++ "  </div>"
  ++ "</div>".

(** How the empty state opens. *)
Definition empty_state_mark : string :=
  "<div class=" ++ dq ++ "empty-state" ++ dq.

(** ** Text without markup *)

(** The characters that open a tag or an entity, or close a tag. *)
Definition markup_char (c : ascii) : bool :=
  let n := Text.code c in
  (n =? 60)%N || (n =? 62)%N || (n =? 38)%N.

Fixpoint plain (s : string) : bool :=
  match s with
  | EmptyString => true
  | String c r => negb (markup_char c) && plain r
  end.

(** A tip none of whose four texts holds a markup character. *)
Definition plain_tip (t : Tip) : Prop :=
  plain (type t) = true /\ plain (icon t) = true
  /\ plain (title t) = true /\ plain (body t) = true.

(** * Lemmas *)

Local Open Scope list_scope.

(** ** The order of Numbers *)

Module OrderFacts.

Import Order.
Local Open Scope Z_scope.

Ltac by_cases x y :=
  destruct x as [[|]|[|]| |[|] ? ?], y as [[|]|[|]| |[|] ? ?];
  cbn;
  try solve [split; [discriminate | lia]];
  try solve [split; [intros _; lia | reflexivity]];
  try solve [split; [discriminate | tauto]].

Ltac same_sign :=
  match goal with
  | |- context [PosDef.Pos.compare_cont Eq ?m1 ?m2] =>
      change (PosDef.Pos.compare_cont Eq m1 m2) with (Pos.compare m1 m2);
      match goal with
      | |- context [Z.compare ?e1 ?e2] =>
          destruct (Z.compare_spec e1 e2); cbn;
          [ destruct (Pos.compare_spec m1 m2); cbn | | ]
      end
  end;
  split; intro; try discriminate; try reflexivity; try lia.

Lemma ltb_iff (x y : Number.t) : Number.ltb x y = true <-> lt x y.
Proof.
  unfold Number.ltb, SFltb, lt.
  by_cases x y; same_sign.
Qed.

Lemma leb_iff (x y : Number.t) : Number.leb x y = true <-> le x y.
Proof.
  unfold Number.leb, SFleb, le.
  by_cases x y; same_sign.
Qed.

End OrderFacts.

(** Decides a comparison from the comparisons in the context, against the
    literals of the source. *)
Ltac float_order :=
  unfold Number.geb, Number.gtb, Number.ltb, Number.leb in *;
  repeat match goal with
  | H : SFltb ?a ?b = true |- _ => apply (OrderFacts.ltb_iff a b) in H
  | H : SFleb ?a ?b = true |- _ => apply (OrderFacts.leb_iff a b) in H
  | |- SFltb ?a ?b = false =>
      let E := fresh "E" in
      destruct (SFltb a b) eqn:E; [exfalso | reflexivity]
  | |- SFleb ?a ?b = false =>
      let E := fresh "E" in
      destruct (SFleb a b) eqn:E; [exfalso | reflexivity]
  end;
  unfold Order.lt, Order.le in *;
  repeat match goal with
  | H : context [Order.key ?x] |- _ =>
      is_var x; destruct x as [[|]|[|]| |[|] ? ?]; cbn in *
  end;
  cbn in *; try contradiction; try lia.

(** ** The blocks of the function *)

(** Each block only appends to the array it is given. *)
Lemma bmi_block_push (latest : Entry) (tips : list Tip) :
  bmi_block latest tips = tips ++ bmi_block latest [].
Proof.
  unfold bmi_block, push.
  repeat match goal with
  | |- context [if ?c then _ else _] => destruct c
  end; cbn [app]; auto using app_nil_r.
Qed.

Lemma sleep_block_push (avg : option Number.t) (tips : list Tip) :
  sleep_block avg tips = tips ++ sleep_block avg [].
Proof.
  unfold sleep_block, push. destruct avg as [a|]; [|auto using app_nil_r].
  repeat match goal with
  | |- context [if ?c then _ else _] => destruct c
  end; reflexivity.
Qed.

Lemma hr_block_push (avg : option Number.t) (tips : list Tip) :
  hr_block avg tips = tips ++ hr_block avg [].
Proof.
  unfold hr_block, push. destruct avg as [a|]; [|auto using app_nil_r].
  repeat match goal with
  | |- context [if ?c then _ else _] => destruct c
  end; reflexivity.
Qed.

Lemma cycle_block_push (latest : Entry) (tips : list Tip) :
  cycle_block latest tips = tips ++ cycle_block latest [].
Proof.
  unfold cycle_block, push.
  repeat match goal with
  | |- context [if ?c then _ else _] => destruct c
  end; cbn [app]; rewrite <- ?app_assoc; auto using app_nil_r.
Qed.

Lemma consistency_block_push (n : nat) (tips : list Tip) :
  consistency_block n tips = tips ++ consistency_block n [].
Proof.
  unfold consistency_block, push.
  destruct (3 <=? n)%nat; auto using app_nil_r.
Qed.

(** The result is what the five blocks append, one after the other. *)
Lemma generatePersonalTips_parts (first : Entry) (rest : list Entry) :
  generatePersonalTips (first :: rest) =
    bmi_block (last rest first) []
    ++ sleep_block (avgSleep (first :: rest)) []
    ++ hr_block (avgHR (first :: rest)) []
    ++ cycle_block (last rest first) []
    ++ consistency_block (List.length (first :: rest)) [].
Proof.
  unfold generatePersonalTips.
  rewrite consistency_block_push, cycle_block_push, hr_block_push,
    sleep_block_push.
  rewrite <- !app_assoc. reflexivity.
Qed.

Lemma bmi_block_nil (latest : Entry) :
  bmi_block latest [] =
    if ToBoolean (bmi latest) && strict_neq_string (bmi latest) "--"
    then [bmi_tip (parseFloat (bmi latest))] else [].
Proof.
  unfold bmi_block, bmi_tip, push.
  repeat match goal with
  | |- context [if ?c then _ else _] => destruct c
  end; reflexivity.
Qed.

Lemma sleep_block_nil (avg : option Number.t) :
  sleep_block avg [] =
    match avg with Some a => [sleep_tip a] | None => [] end.
Proof.
  unfold sleep_block, sleep_tip, push. destruct avg as [a|]; [|reflexivity].
  repeat match goal with
  | |- context [if ?c then _ else _] => destruct c
  end; reflexivity.
Qed.

Lemma hr_block_nil (avg : option Number.t) :
  hr_block avg [] =
    match avg with Some a => [hr_tip (Number.round a)] | None => [] end.
Proof.
  unfold hr_block, hr_tip, push. destruct avg as [a|]; [|reflexivity].
  repeat match goal with
  | |- context [if ?c then _ else _] => destruct c
  end; reflexivity.
Qed.

Lemma cycle_block_nil (latest : Entry) :
  cycle_block latest [] =
    (if ToBoolean (cycleTracking latest) then [tip_cycle_active] else [])
    ++ (if ToBoolean (cycleTracking latest)
           && (ToBoolean (cycleLength latest)
               && (lt_number (cycleLength latest) n21
                   || gt_number (cycleLength latest) n35))
        then [tip_cycle_length (cycleLength latest)] else []).
Proof.
  unfold cycle_block, push.
  destruct (ToBoolean (cycleTracking latest)); [|reflexivity].
  cbn [andb].
  destruct (ToBoolean (cycleLength latest)
            && (lt_number (cycleLength latest) n21
                || gt_number (cycleLength latest) n35)); reflexivity.
Qed.

Lemma consistency_block_nil (n : nat) :
  consistency_block n [] =
    if (3 <=? n)%nat then [tip_consistency n] else [].
Proof.
  unfold consistency_block, push. destruct (3 <=? n)%nat; reflexivity.
Qed.

(** ** Categories of the tips *)

Lemma category_bmi_tip (b : Number.t) : category (bmi_tip b) = Some BMI.
Proof.
  unfold bmi_tip.
  repeat match goal with
  | |- context [if ?c then _ else _] => destruct c
  end; reflexivity.
Qed.

Lemma category_sleep_tip (a : Number.t) : category (sleep_tip a) = Some Sleep.
Proof.
  unfold sleep_tip.
  repeat match goal with
  | |- context [if ?c then _ else _] => destruct c
  end; reflexivity.
Qed.

Lemma category_hr_tip (hr : Number.t) : category (hr_tip hr) = Some HeartRate.
Proof.
  unfold hr_tip.
  repeat match goal with
  | |- context [if ?c then _ else _] => destruct c
  end; reflexivity.
Qed.

Lemma category_cycle_active : category tip_cycle_active = Some CycleActive.
Proof. reflexivity. Qed.

Lemma category_cycle_length (v : value) :
  category (tip_cycle_length v) = Some CycleLength.
Proof. reflexivity. Qed.

Lemma category_consistency (n : nat) :
  category (tip_consistency n) = Some Consistency.
Proof. reflexivity. Qed.

Lemma pick_app (p : Category -> bool) (l1 l2 : list Tip) :
  pick p (l1 ++ l2) = pick p l1 ++ pick p l2.
Proof. apply filter_app. Qed.

Lemma pick_one (p : Category -> bool) (c : Category) (t : Tip) :
  category t = Some c -> pick p [t] = if p c then [t] else [].
Proof.
  intros H. unfold pick. cbn [filter]. rewrite H. reflexivity.
Qed.

Lemma pick_if (p : Category -> bool) (b : bool) (l : list Tip) :
  pick p (if b then l else []) = if b then pick p l else [].
Proof. destruct b; reflexivity. Qed.

Lemma pick_option (p : Category -> bool) (c : Category)
  (f : Number.t -> Tip) (o : option Number.t) :
  (forall a, category (f a) = Some c) ->
  pick p (match o with Some a => [f a] | None => [] end) =
    if p c then match o with Some a => [f a] | None => [] end else [].
Proof.
  intros H. destruct o as [a|]; [apply pick_one, H|].
  destruct (p c); reflexivity.
Qed.

Lemma generatePersonalTips_eq (questLog : list Entry) (latest : Entry) :
  latest_entry questLog = Some latest ->
  generatePersonalTips questLog =
    bmi_part latest ++ sleep_part questLog ++ hr_part questLog
    ++ cycle_active_part latest ++ cycle_length_part latest
    ++ consistency_part questLog.
Proof.
  destruct questLog as [|first rest]; [discriminate|].
  intros [= <-].
  rewrite generatePersonalTips_parts, bmi_block_nil, sleep_block_nil,
    hr_block_nil, cycle_block_nil, consistency_block_nil.
  rewrite <- !app_assoc. reflexivity.
Qed.

Lemma pick_parts (p : Category -> bool) (questLog : list Entry)
  (latest : Entry) :
  latest_entry questLog = Some latest ->
  pick p (generatePersonalTips questLog) =
    (if p BMI then bmi_part latest else [])
    ++ (if p Sleep then sleep_part questLog else [])
    ++ (if p HeartRate then hr_part questLog else [])
    ++ (if p CycleActive then cycle_active_part latest else [])
    ++ (if p CycleLength then cycle_length_part latest else [])
    ++ (if p Consistency then consistency_part questLog else []).
Proof.
  intros H. rewrite (generatePersonalTips_eq _ _ H).
  rewrite !pick_app.
  unfold bmi_part, sleep_part, hr_part, cycle_active_part, cycle_length_part,
    consistency_part.
  rewrite !pick_if.
  rewrite (pick_one p _ _ (category_bmi_tip _)),
    (pick_one p _ _ category_cycle_active),
    (pick_one p _ _ (category_cycle_length _)),
    (pick_one p _ _ (category_consistency _)).
  rewrite (pick_option p Sleep sleep_tip _ category_sleep_tip),
    (pick_option p HeartRate (fun a => hr_tip (Number.round a)) _
       (fun a => category_hr_tip _)).
  destruct (p BMI), (p Sleep), (p HeartRate), (p CycleActive),
    (p CycleLength), (p Consistency);
    repeat match goal with
    | |- context [if ?b then _ else _] => destruct b
    end; reflexivity.
Qed.

Lemma select_parts (c : Category) (questLog : list Entry) (latest : Entry) :
  latest_entry questLog = Some latest ->
  select c (generatePersonalTips questLog) =
    match c with
    | BMI => bmi_part latest
    | Sleep => sleep_part questLog
    | HeartRate => hr_part questLog
    | CycleActive => cycle_active_part latest
    | CycleLength => cycle_length_part latest
    | Consistency => consistency_part questLog
    end.
Proof.
  intros H. unfold select. rewrite (pick_parts _ _ _ H).
  destruct c; cbn; rewrite ?app_nil_r; reflexivity.
Qed.

(** ** The sums of the loop *)

Lemma fold_add_entry (l : list Entry) (acc : Sums) :
  let r := fold_left add_entry l acc in
  totalSleep r =
    fold_left Number.add (readings sleepHours ToBoolean l) (totalSleep acc)
  /\ sleepCount r =
       (sleepCount acc
        + N.of_nat (List.length (readings sleepHours ToBoolean l)))%N
  /\ totalHR r =
       fold_left Number.add (readings heartRate ToBoolean l) (totalHR acc)
  /\ hrCount r =
       (hrCount acc
        + N.of_nat (List.length (readings heartRate ToBoolean l)))%N.
Proof.
  revert acc. induction l as [|e l IH]; intros acc.
  - cbn. rewrite !N.add_0_r. auto.
  - cbn [fold_left]. specialize (IH (add_entry acc e)).
    cbv zeta in IH. destruct IH as (H1 & H2 & H3 & H4).
    rewrite H1, H2, H3, H4. clear H1 H2 H3 H4.
    unfold readings, add_entry. cbn [filter].
    destruct (ToBoolean (sleepHours e)), (ToBoolean (heartRate e));
      cbn [map fold_left List.length totalSleep sleepCount totalHR hrCount];
      repeat split; try reflexivity; lia.
Qed.

Lemma average_mean (xs : list Number.t) :
  average (fold_left Number.add xs Number.zero)
          (0 + N.of_nat (List.length xs)) = mean xs.
Proof.
  unfold average, mean. rewrite N.add_0_l.
  destruct xs as [|x xs]; [reflexivity|].
  replace (0 <? N.of_nat (List.length (x :: xs)))%N with true
    by (symmetry; apply N.ltb_lt; cbn [List.length]; lia).
  rewrite nat_N_Z. reflexivity.
Qed.

Lemma avgSleep_mean (questLog : list Entry) :
  avgSleep questLog = mean (readings sleepHours ToBoolean questLog).
Proof.
  unfold avgSleep, sums.
  destruct (fold_add_entry questLog sums0) as (H1 & H2 & _).
  rewrite H1, H2. apply average_mean.
Qed.

Lemma avgHR_mean (questLog : list Entry) :
  avgHR questLog = mean (readings heartRate ToBoolean questLog).
Proof.
  unfold avgHR, sums.
  destruct (fold_add_entry questLog sums0) as (_ & _ & H3 & H4).
  rewrite H3, H4. apply average_mean.
Qed.

Lemma readings_cons (field : Entry -> value) (keep : value -> bool)
  (e : Entry) (l : list Entry) :
  readings field keep (e :: l) =
    if keep (field e) then parseFloat (field e) :: readings field keep l
    else readings field keep l.
Proof.
  unfold readings. cbn [filter]. destruct (keep (field e)); reflexivity.
Qed.

(** ** NaN in a sum *)

Lemma is_nan_eq (x : Number.t) : Number.is_nan x = true -> x = Number.NaN.
Proof. destruct x; try discriminate; reflexivity. Qed.

Lemma add_nan_r (x : Number.t) : Number.add x Number.NaN = Number.NaN.
Proof. destruct x as [[|]|[|]| |[|] ? ?]; reflexivity. Qed.

Lemma fold_add_nan (l : list Number.t) :
  fold_left Number.add l Number.NaN = Number.NaN.
Proof. induction l as [|x l IH]; [reflexivity|exact IH]. Qed.

Lemma fold_add_in_nan (l : list Number.t) (acc : Number.t) :
  In Number.NaN l -> fold_left Number.add l acc = Number.NaN.
Proof.
  revert acc. induction l as [|x l IH]; intros acc; [intros []|].
  intros [-> | H]; cbn [fold_left].
  - rewrite add_nan_r. apply fold_add_nan.
  - apply IH, H.
Qed.

Lemma mean_nan (xs : list Number.t) :
  In Number.NaN xs -> mean xs = Some Number.NaN.
Proof.
  intros H. unfold mean. rewrite (fold_add_in_nan _ _ H).
  destruct xs; [destruct H | reflexivity].
Qed.

Lemma readings_nan (field : Entry -> value) (questLog : list Entry) (e : Entry) :
  In e questLog -> ToBoolean (field e) = true ->
  Number.is_nan (parseFloat (field e)) = true ->
  In Number.NaN (readings field ToBoolean questLog).
Proof.
  intros Hin Ht Hn. unfold readings.
  rewrite <- (is_nan_eq _ Hn).
  apply (in_map (fun e => parseFloat (field e))).
  apply filter_In. auto.
Qed.

(** ** Occurrences in a text *)

Lemma prefix_append (s t : string) : String.prefix s (s ++ t)%string = true.
Proof.
  induction s as [|c s IH]; [destruct t; reflexivity|].
  cbn. destruct (ascii_dec c c); [exact IH | contradiction].
Qed.

Lemma contains_prefix (s t : string) :
  String.prefix s t = true -> contains s t = true.
Proof.
  intros H. destruct t; cbn [contains]; rewrite H; reflexivity.
Qed.

Lemma contains_middle (pre s post : string) :
  contains s (pre ++ s ++ post)%string = true.
Proof.
  induction pre as [|c pre IH].
  - cbn [append]. apply contains_prefix, prefix_append.
  - cbn [append contains]. rewrite IH. apply orb_true_r.
Qed.

Lemma nonempty_latest (questLog : list Entry) :
  questLog <> [] -> exists latest, latest_entry questLog = Some latest.
Proof.
  destruct questLog as [|first rest]; [intros H; destruct H; reflexivity|].
  intros _. exists (last rest first). reflexivity.
Qed.

Lemma body_sleep_tip (a : Number.t) :
  contains (Number.toFixed1 a) (body (sleep_tip a)) = true.
Proof.
  unfold sleep_tip.
  repeat match goal with
  | |- context [if ?c then _ else _] => destruct c
  end; apply contains_middle.
Qed.

(** * Theorems *)

(** ** The empty log *)

(** C7: on the empty log the function returns the empty array of tips; it
    returns at once, and nothing is raised. *)
Theorem C7_empty_log : generatePersonalTips [] = [].
Proof. reflexivity. Qed.

(** ** Sleep *)

(** C2, as stated, fails: the entry whose sleepHours is the number 0 has the
    property, yet the loop leaves it out; the average of the code is 8 and
    the tip is the good one, where the mean over the entries that have the
    property is 4. *)
Lemma C2_counterexample :
  avgSleep log_sleep_0_8 = Some (Number.of_Z 8)
  /\ mean (readings sleepHours present log_sleep_0_8) = Some (Number.of_Z 4)
  /\ avgSleep log_sleep_0_8 <> mean (readings sleepHours present log_sleep_0_8)
  /\ select Sleep (generatePersonalTips log_sleep_0_8)
     = [tip_sleep_good (Number.of_Z 8)].
Proof.
  split; [vm_compute; reflexivity|].
  split; [vm_compute; reflexivity|].
  split; [|vm_compute; reflexivity].
  intros H. vm_compute in H. discriminate H.
Qed.

(** C2 (amended): avgSleep is the mean of parseFloat(sleepHours) over exactly
    the entries whose sleepHours is truthy, and null when there is none; a
    sleep tip is emitted iff avgSleep is not null, and it is then one tip:
    alert when avgSleep < 6, warning when 6 <= avgSleep < 7, good when
    7 <= avgSleep <= 9, warning when avgSleep > 9, its body holding
    avgSleep.toFixed(1). Three entries with sleepHours 5, 7 and 9 give the
    good tip, with "7.0" in its body. *)
Theorem C2_sleep_tip :
  (forall questLog : list Entry,
      questLog <> [] ->
      avgSleep questLog = mean (readings sleepHours ToBoolean questLog)
      /\ (select Sleep (generatePersonalTips questLog) <> []
          <-> avgSleep questLog <> None)
      /\ (forall a,
             avgSleep questLog = Some a ->
             exists t,
               select Sleep (generatePersonalTips questLog) = [t]
               /\ (Number.ltb a n6 = true -> type t = "alert"%string)
               /\ (Number.geb a n6 = true -> Number.ltb a n7 = true ->
                   type t = "warning"%string)
               /\ (Number.geb a n7 = true -> Number.leb a n9 = true ->
                   type t = "good"%string)
               /\ (Number.gtb a n9 = true -> type t = "warning"%string)
               /\ contains (Number.toFixed1 a) (body t) = true))
  /\ (forall e1 e2 e3 : Entry,
         sleepHours e1 = lit 5 0 -> sleepHours e2 = lit 7 0 ->
         sleepHours e3 = lit 9 0 ->
         avgSleep [e1; e2; e3] = Some (Number.of_Z 7)
         /\ exists t,
              select Sleep (generatePersonalTips [e1; e2; e3]) = [t]
              /\ type t = "good"%string
              /\ contains "7.0" (body t) = true).
Proof.
  split.
  - intros questLog Hne.
    destruct (nonempty_latest _ Hne) as [latest Hl].
    rewrite (select_parts Sleep _ _ Hl). unfold sleep_part.
    split; [apply avgSleep_mean|]. split.
    + destruct (avgSleep questLog); split; intros H; try discriminate;
        congruence.
    + intros a ->. exists (sleep_tip a). split; [reflexivity|].
      repeat split.
      * intros H. unfold sleep_tip. rewrite H. reflexivity.
      * intros H6 H7. unfold sleep_tip.
        replace (Number.ltb a n6) with false by (symmetry; float_order).
        rewrite H7. reflexivity.
      * intros H7 H9. unfold sleep_tip.
        replace (Number.ltb a n6) with false by (symmetry; float_order).
        replace (Number.ltb a n7) with false by (symmetry; float_order).
        rewrite H9. reflexivity.
      * intros H9. unfold sleep_tip.
        replace (Number.ltb a n6) with false by (symmetry; float_order).
        replace (Number.ltb a n7) with false by (symmetry; float_order).
        replace (Number.leb a n9) with false by (symmetry; float_order).
        reflexivity.
      * apply body_sleep_tip.
  - intros e1 e2 e3 H1 H2 H3.
    assert (Ha : avgSleep [e1; e2; e3] = Some (Number.of_Z 7)).
    { rewrite avgSleep_mean, !readings_cons, H1, H2, H3.
      vm_compute. reflexivity. }
    split; [exact Ha|].
    rewrite (select_parts Sleep [e1; e2; e3] e3 eq_refl).
    unfold sleep_part. rewrite Ha.
    exists (sleep_tip (Number.of_Z 7)). split; [reflexivity|].
    split; vm_compute; reflexivity.
Qed.

Lemma C2_sleep_tip_witness :
  (exists t,
      select Sleep (generatePersonalTips log_sleep_0_8) = [t]
      /\ (Number.geb (Number.of_Z 8) n7 = true ->
          Number.leb (Number.of_Z 8) n9 = true -> type t = "good"%string))
  /\ avgSleep [with_sleep (lit 5 0); with_sleep (lit 7 0);
               with_sleep (lit 9 0)] = Some (Number.of_Z 7).
Proof.
  destruct C2_sleep_tip as [Hgen Hex]. split.
  - destruct (Hgen log_sleep_0_8) as (_ & _ & H); [discriminate|].
    destruct (H (Number.of_Z 8)) as (t & Ht & _ & _ & Hgood & _);
      [vm_compute; reflexivity|].
    exists t. split; [exact Ht | exact Hgood].
  - apply (Hex (with_sleep (lit 5 0)) (with_sleep (lit 7 0))
               (with_sleep (lit 9 0))); reflexivity.
Defined.

(** ** Values that do not parse *)

Lemma last_map {A B : Type} (f : A -> B) (l : list A) (d : A) :
  last (map f l) (f d) = f (last l d).
Proof.
  induction l as [|a l IH]; [reflexivity|].
  destruct l as [|b l]; [reflexivity|]. exact IH.
Qed.

Lemma latest_entry_map (f : Entry -> Entry) (questLog : list Entry)
  (latest : Entry) :
  latest_entry questLog = Some latest ->
  latest_entry (map f questLog) = Some (f latest).
Proof.
  destruct questLog as [|first rest]; [discriminate|].
  intros [= <-]. cbn [map latest_entry]. f_equal. apply last_map.
Qed.

Lemma nonempty_in_latest (questLog : list Entry) (e : Entry) :
  In e questLog -> exists latest, latest_entry questLog = Some latest.
Proof.
  intros H. apply nonempty_latest. intros ->. destruct H.
Qed.

Lemma kept_truthy (v : value) :
  ToBoolean (if ToBoolean v then v else JUndefined) = ToBoolean v.
Proof. destruct (ToBoolean v) eqn:E; [exact E | reflexivity]. Qed.

Lemma readings_without_falsy (field : Entry -> value)
  (questLog : list Entry) :
  (forall e, field (without_falsy e)
             = if ToBoolean (field e) then field e else JUndefined) ->
  readings field ToBoolean (map without_falsy questLog)
  = readings field ToBoolean questLog.
Proof.
  intros Hf. induction questLog as [|e l IH]; [reflexivity|].
  cbn [map]. rewrite !readings_cons, IH, Hf, kept_truthy.
  destruct (ToBoolean (field e)); reflexivity.
Qed.

Lemma bmi_part_without_falsy (e : Entry) :
  bmi_part (without_falsy e) = bmi_part e.
Proof.
  unfold bmi_part. cbn [bmi without_falsy].
  destruct (ToBoolean (bmi e) && strict_neq_string (bmi e) "--") eqn:E;
    [rewrite E|]; reflexivity.
Qed.

Lemma cycle_active_part_without_falsy (e : Entry) :
  cycle_active_part (without_falsy e) = cycle_active_part e.
Proof.
  unfold cycle_active_part. cbn [cycleTracking without_falsy].
  rewrite kept_truthy. reflexivity.
Qed.

Lemma cycle_length_part_without_falsy (e : Entry) :
  cycle_length_part (without_falsy e) = cycle_length_part e.
Proof.
  unfold cycle_length_part. cbn [cycleTracking cycleLength without_falsy].
  rewrite !kept_truthy.
  destruct (ToBoolean (cycleTracking e)); [|reflexivity].
  destruct (ToBoolean (cycleLength e)); reflexivity.
Qed.

Lemma without_falsy_tips (questLog : list Entry) :
  generatePersonalTips questLog
  = generatePersonalTips (map without_falsy questLog).
Proof.
  destruct (latest_entry questLog) as [latest|] eqn:Hl.
  - rewrite (generatePersonalTips_eq _ _ Hl).
    rewrite (generatePersonalTips_eq _ _
               (latest_entry_map without_falsy _ _ Hl)).
    rewrite bmi_part_without_falsy, cycle_active_part_without_falsy,
      cycle_length_part_without_falsy.
    unfold sleep_part, hr_part, consistency_part.
    rewrite !avgSleep_mean, !avgHR_mean, length_map.
    rewrite (readings_without_falsy sleepHours),
      (readings_without_falsy heartRate) by reflexivity.
    reflexivity.
  - destruct questLog; [reflexivity | discriminate Hl].
Qed.

Lemma falsy_iff (v : value) :
  ToBoolean v = false
  <-> v = JUndefined \/ v = JNull \/ v = JBool false
      \/ (exists s, v = JNum (S754_zero s)) \/ v = JNum Number.NaN
      \/ v = JStr "".
Proof.
  split.
  - destruct v as [| |[|]|[s|s| |s m e]|[|c r]]; cbn; intros H;
      try discriminate H;
      solve [repeat first [left; reflexivity | right; reflexivity
                          | left; eexists; reflexivity | right]].
  - intros [->|[->|[->|[[s ->]|[->| ->]]]]]; reflexivity.
Qed.

(** *** The function on the values of JSON *)

Lemma own_app (name : string) (l1 l2 : list (string * Json.t)) :
  Checked.own name (l1 ++ l2)
  = match Checked.own name l1 with
    | Some v => Some v
    | None => Checked.own name l2
    end.
Proof.
  induction l1 as [|[k v] l1 IH]; [reflexivity|].
  cbn [app Checked.own]. destruct (String.eqb k name); [reflexivity | exact IH].
Qed.

Ltac read_property e :=
  destruct e as [b s h t l]; unfold json_of_entry, prop;
  cbn [Checked.get bmi sleepHours heartRate cycleTracking cycleLength];
  destruct (json_of_value b), (json_of_value s), (json_of_value h),
    (json_of_value t), (json_of_value l); reflexivity.

Lemma get_bmi (e : Entry) :
  Checked.get (json_of_entry e) "bmi" = Checked.Normal (json_of_value (bmi e)).
Proof. read_property e. Qed.

Lemma get_sleepHours (e : Entry) :
  Checked.get (json_of_entry e) "sleepHours"
  = Checked.Normal (json_of_value (sleepHours e)).
Proof. read_property e. Qed.

Lemma get_heartRate (e : Entry) :
  Checked.get (json_of_entry e) "heartRate"
  = Checked.Normal (json_of_value (heartRate e)).
Proof. read_property e. Qed.

Lemma get_cycleTracking (e : Entry) :
  Checked.get (json_of_entry e) "cycleTracking"
  = Checked.Normal (json_of_value (cycleTracking e)).
Proof. read_property e. Qed.

Lemma get_cycleLength (e : Entry) :
  Checked.get (json_of_entry e) "cycleLength"
  = Checked.Normal (json_of_value (cycleLength e)).
Proof. read_property e. Qed.

Lemma ToBoolean_json (v : value) :
  Checked.ToBoolean (json_of_value v) = ToBoolean v.
Proof. destruct v; reflexivity. Qed.

Lemma ToPrimitive_json (v : value) :
  Checked.ToPrimitive (json_of_value v) = Checked.Normal v.
Proof. destruct v; reflexivity. Qed.

Lemma parseFloat_json (v : value) :
  Checked.parseFloat (json_of_value v) = Checked.Normal (parseFloat v).
Proof. unfold Checked.parseFloat. rewrite ToPrimitive_json. reflexivity. Qed.

Lemma strict_neq_string_json (v : value) (s : string) :
  Checked.strict_neq_string (json_of_value v) s = strict_neq_string v s.
Proof. destruct v; reflexivity. Qed.

Lemma add_entry_json (acc : Sums) (e : Entry) :
  Checked.add_entry acc (json_of_entry e) = Checked.Normal (add_entry acc e).
Proof.
  unfold Checked.add_entry, add_entry.
  rewrite get_sleepHours, get_heartRate. cbn [Checked.bind].
  rewrite !ToBoolean_json, !parseFloat_json.
  destruct (ToBoolean (sleepHours e)), (ToBoolean (heartRate e)); reflexivity.
Qed.

Lemma sums_json (questLog : list Entry) (acc : Sums) :
  fold_left (fun acc entry => Checked.bind acc (fun a => Checked.add_entry a entry))
            (map json_of_entry questLog) (Checked.Normal acc)
  = Checked.Normal (fold_left add_entry questLog acc).
Proof.
  revert acc. induction questLog as [|e l IH]; intros acc; [reflexivity|].
  cbn [map fold_left Checked.bind]. rewrite add_entry_json. apply IH.
Qed.

Lemma bmi_block_json (e : Entry) (tips : list Tip) :
  Checked.bmi_block (json_of_entry e) tips = Checked.Normal (bmi_block e tips).
Proof.
  unfold Checked.bmi_block, bmi_block.
  rewrite get_bmi. cbn [Checked.bind].
  rewrite ToBoolean_json, strict_neq_string_json, parseFloat_json.
  destruct (ToBoolean (bmi e) && strict_neq_string (bmi e) "--");
    [|reflexivity].
  cbn [Checked.bind].
  destruct (Number.ltb (parseFloat (bmi e)) n18_5); [reflexivity|].
  destruct (Number.geb (parseFloat (bmi e)) n18_5
            && Number.ltb (parseFloat (bmi e)) n25); [reflexivity|].
  destruct (Number.geb (parseFloat (bmi e)) n25
            && Number.ltb (parseFloat (bmi e)) n30); reflexivity.
Qed.

Lemma cycle_block_json (e : Entry) (tips : list Tip) :
  Checked.cycle_block (json_of_entry e) tips
  = Checked.Normal (cycle_block e tips).
Proof.
  unfold Checked.cycle_block, cycle_block, Checked.lt_number,
    Checked.gt_number.
  rewrite get_cycleTracking, get_cycleLength. cbn [Checked.bind].
  rewrite !ToBoolean_json, !ToPrimitive_json. cbn [Checked.bind].
  destruct (ToBoolean (cycleTracking e)); [|reflexivity].
  destruct (ToBoolean (cycleLength e)); [|reflexivity].
  destruct (lt_number (cycleLength e) n21); [reflexivity|].
  cbn [Checked.bind orb andb].
  destruct (gt_number (cycleLength e) n35); reflexivity.
Qed.

(** On a log of objects with primitive values, the function on the values
    of JSON returns what the function on entries returns. *)
Lemma generatePersonalTips_json (questLog : list Entry) :
  Checked.generatePersonalTips (map json_of_entry questLog)
  = Checked.Normal (generatePersonalTips questLog).
Proof.
  destruct questLog as [|first rest]; [reflexivity|].
  unfold Checked.generatePersonalTips, generatePersonalTips.
  rewrite length_map.
  change (map json_of_entry (first :: rest))
    with (json_of_entry first :: map json_of_entry rest) at 1.
  cbv iota beta.
  rewrite last_map.
  unfold Checked.sums. rewrite sums_json. cbn [Checked.bind].
  rewrite bmi_block_json. cbn [Checked.bind].
  rewrite cycle_block_json. cbn [Checked.bind].
  reflexivity.
Qed.

(** Induction on a value of JSON, with the elements of an array. *)
Lemma json_induction (P : Json.t -> Prop) :
  P Json.Null ->
  (forall b, P (Json.Bool b)) ->
  (forall x, P (Json.Num x)) ->
  (forall s, P (Json.Str s)) ->
  (forall items, Forall P items -> P (Json.Arr items)) ->
  (forall props, P (Json.Obj props)) ->
  forall v, P v.
Proof.
  intros HNull HBool HNum HStr HArr HObj.
  fix IH 1. intros [|b|x|s|items|props].
  - exact HNull.
  - apply HBool.
  - apply HNum.
  - apply HStr.
  - apply HArr. induction items as [|x items IHitems].
    + constructor.
    + constructor; [apply IH | exact IHitems].
  - apply HObj.
Qed.

Lemma printable_ToString (v : Json.t) :
  printable v = true -> exists s, Checked.ToString v = Checked.Normal s.
Proof.
  induction v as [|b|x|s|items IH|props] using json_induction;
    intros Hp.
  - eexists; reflexivity.
  - destruct b; eexists; reflexivity.
  - eexists; reflexivity.
  - eexists; reflexivity.
  - cbn [printable] in Hp. cbn [Checked.ToString].
    induction IH as [|x items Hx _ IHitems].
    + eexists; reflexivity.
    + cbn [forallb] in Hp. apply andb_prop in Hp as [Hpx Hpi].
      destruct (IHitems Hpi) as [more Hmore].
      assert (Hnext : exists next,
                 match x with
                 | Json.Null => Checked.Normal ""%string
                 | _ => Checked.ToString x
                 end = Checked.Normal next).
      { destruct x; try (apply Hx, Hpx). eexists; reflexivity. }
      destruct Hnext as [next Hnext]. rewrite Hnext. cbn [Checked.bind].
      destruct items as [|y items]; [eexists; reflexivity|].
      rewrite Hmore. eexists; reflexivity.
  - cbn [printable] in Hp. cbn [Checked.ToString].
    destruct (Checked.own "toString" props); [discriminate|].
    eexists; reflexivity.
Qed.

Lemma printable_ToPrimitive (v : option Json.t) :
  match v with Some j => printable j | None => true end = true ->
  exists p, Checked.ToPrimitive v = Checked.Normal p.
Proof.
  destruct v as [[|b|x|s|items|props]|]; intros Hp;
    try (eexists; reflexivity).
  - destruct (printable_ToString _ Hp) as [s Hs].
    unfold Checked.ToPrimitive. rewrite Hs. eexists; reflexivity.
  - destruct (printable_ToString _ Hp) as [s Hs].
    unfold Checked.ToPrimitive. rewrite Hs. eexists; reflexivity.
Qed.

Lemma readable_get (entry : Json.t) (name : string) :
  readable entry name = true ->
  exists v p, Checked.get entry name = Checked.Normal v
              /\ Checked.ToPrimitive v = Checked.Normal p.
Proof.
  destruct entry as [|b|x|s|items|props]; cbn [readable Checked.get];
    intros H; try discriminate;
    try (exists None, JUndefined; split; reflexivity).
  destruct (printable_ToPrimitive (Checked.own name props) H) as [p Hp].
  exists (Checked.own name props), p. split; [reflexivity | exact Hp].
Qed.

Lemma not_null_get (entry : Json.t) (name : string) :
  entry <> Json.Null -> exists v, Checked.get entry name = Checked.Normal v.
Proof.
  destruct entry; intros H; try (eexists; reflexivity).
  destruct H; reflexivity.
Qed.

Lemma safe_entry_readable (entry : Json.t) :
  safe_entry entry = true ->
  readable entry "bmi" = true /\ readable entry "sleepHours" = true
  /\ readable entry "heartRate" = true /\ readable entry "cycleLength" = true
  /\ entry <> Json.Null.
Proof.
  unfold safe_entry. intros H.
  apply andb_prop in H as [H Hl]. apply andb_prop in H as [H Hh].
  apply andb_prop in H as [Hb Hs].
  repeat (split; [assumption|]).
  intros ->. discriminate Hb.
Qed.

Lemma add_entry_safe (acc : Sums) (entry : Json.t) :
  safe_entry entry = true ->
  exists acc', Checked.add_entry acc entry = Checked.Normal acc'.
Proof.
  intros H. destruct (safe_entry_readable _ H) as (_ & Hs & Hh & _).
  destruct (readable_get _ _ Hs) as (vs & ps & Gs & Ps).
  destruct (readable_get _ _ Hh) as (vh & ph & Gh & Ph).
  unfold Checked.add_entry, Checked.parseFloat.
  rewrite Gs, Gh. cbn [Checked.bind]. rewrite Ps, Ph.
  destruct (Checked.ToBoolean vs), (Checked.ToBoolean vh);
    eexists; reflexivity.
Qed.

Lemma sums_safe (questLog : list Json.t) (acc : Sums) :
  Forall (fun entry => safe_entry entry = true) questLog ->
  exists s,
    fold_left (fun acc entry => Checked.bind acc (fun a => Checked.add_entry a entry))
              questLog (Checked.Normal acc)
    = Checked.Normal s.
Proof.
  intros H. revert acc. induction H as [|e l He _ IH]; intros acc.
  - eexists; reflexivity.
  - cbn [fold_left Checked.bind].
    destruct (add_entry_safe acc e He) as [acc' ->]. apply IH.
Qed.

Lemma bmi_block_safe (latest : Json.t) (tips : list Tip) :
  safe_entry latest = true ->
  exists tips', Checked.bmi_block latest tips = Checked.Normal tips'.
Proof.
  intros H. destruct (safe_entry_readable _ H) as (Hb & _).
  destruct (readable_get _ _ Hb) as (v & p & G & P).
  unfold Checked.bmi_block, Checked.parseFloat.
  rewrite G. cbn [Checked.bind]. rewrite P. cbn [Checked.bind].
  destruct (Checked.ToBoolean v && Checked.strict_neq_string v "--");
    [|eexists; reflexivity].
  destruct (Number.ltb (parseFloat p) n18_5); [eexists; reflexivity|].
  destruct (Number.geb (parseFloat p) n18_5 && Number.ltb (parseFloat p) n25);
    [eexists; reflexivity|].
  destruct (Number.geb (parseFloat p) n25 && Number.ltb (parseFloat p) n30);
    eexists; reflexivity.
Qed.

Lemma cycle_block_safe (latest : Json.t) (tips : list Tip) :
  safe_entry latest = true ->
  exists tips', Checked.cycle_block latest tips = Checked.Normal tips'.
Proof.
  intros H. destruct (safe_entry_readable _ H) as (_ & _ & _ & Hl & Hn).
  destruct (readable_get _ _ Hl) as (v & p & G & P).
  destruct (not_null_get _ "cycleTracking" Hn) as [t Gt].
  unfold Checked.cycle_block, Checked.lt_number, Checked.gt_number.
  rewrite Gt, G. cbn [Checked.bind]. rewrite P.
  destruct (Checked.ToBoolean t); [|eexists; reflexivity].
  destruct (Checked.ToBoolean v); [|eexists; reflexivity].
  cbn [Checked.bind].
  destruct (lt_number p n21); [eexists; reflexivity|].
  cbn [Checked.bind].
  destruct (gt_number p n35); eexists; reflexivity.
Qed.

Lemma last_Forall {A : Type} (P : A -> Prop) (l : list A) (d : A) :
  P d -> Forall P l -> P (last l d).
Proof.
  intros Hd H. induction H as [|a l Ha Hl IH]; [exact Hd|].
  destruct l as [|b l]; [exact Ha | exact IH].
Qed.

Lemma generatePersonalTips_safe (questLog : list Json.t) :
  Forall (fun entry => safe_entry entry = true) questLog ->
  exists tips, Checked.generatePersonalTips questLog = Checked.Normal tips.
Proof.
  intros H. destruct questLog as [|first rest]; [eexists; reflexivity|].
  assert (Hlatest : safe_entry (last rest first) = true).
  { inversion H; subst.
    apply (last_Forall (fun entry => safe_entry entry = true));
      assumption. }
  unfold Checked.generatePersonalTips, Checked.sums.
  destruct (sums_safe _ sums0 H) as [s ->]. cbn [Checked.bind].
  destruct (bmi_block_safe _ [] Hlatest) as [tips1 ->]. cbn [Checked.bind].
  match goal with
  | |- context [Checked.cycle_block _ ?t] =>
      destruct (cycle_block_safe (last rest first) t Hlatest) as [tips2 ->]
  end.
  eexists; reflexivity.
Qed.

Lemma sums_thrown (questLog : list Json.t) :
  fold_left (fun acc entry => Checked.bind acc (fun a => Checked.add_entry a entry))
            questLog Checked.Throw
  = Checked.Throw.
Proof. induction questLog as [|e l IH]; [reflexivity | exact IH]. Qed.

Lemma sums_null (questLog : list Json.t) (acc : Checked.outcome Sums) :
  In Json.Null questLog ->
  fold_left (fun acc entry => Checked.bind acc (fun a => Checked.add_entry a entry))
            questLog acc
  = Checked.Throw.
Proof.
  revert acc. induction questLog as [|e l IH]; intros acc; [intros []|].
  intros [->|Hin]; cbn [fold_left].
  - destruct acc; cbn [Checked.bind]; apply sums_thrown.
  - apply IH, Hin.
Qed.

Lemma generatePersonalTips_null (questLog : list Json.t) :
  In Json.Null questLog ->
  Checked.generatePersonalTips questLog = Checked.Throw.
Proof.
  intros H. destruct questLog as [|first rest]; [destruct H|].
  unfold Checked.generatePersonalTips, Checked.sums.
  rewrite (sums_null _ _ H). reflexivity.
Qed.





(** ** BMI *)

Lemma strict_neq_string_iff (v : value) (s : string) :
  strict_neq_string v s = true <-> v <> JStr s.
Proof.
  destruct v as [| |b|x|s']; cbn; try (split; [discriminate | reflexivity]).
  destruct (String.eqb_spec s' s) as [->|Hne]; cbn; split;
    try discriminate; try reflexivity; try congruence.
Qed.

Lemma body_bmi_tip (b : Number.t) :
  contains (Number.toString b) (body (bmi_tip b)) = true.
Proof.
  unfold bmi_tip.
  repeat match goal with
  | |- context [if ?c then _ else _] => destruct c
  end; apply contains_middle.
Qed.

(** C3, as stated, fails: a bmi that is the number 0 is present and is not
    the placeholder '--', yet no BMI tip is emitted. *)
Lemma C3_counterexample :
  latest_entry log_bmi_0 = Some (with_bmi (lit 0 0))
  /\ present (lit 0 0) = true
  /\ lit 0 0 <> JStr "--"
  /\ select BMI (generatePersonalTips log_bmi_0) = []
  /\ generatePersonalTips log_bmi_0 = [].
Proof.
  split; [reflexivity|].
  split; [reflexivity|].
  split; [discriminate|].
  split; vm_compute; reflexivity.
Qed.

(** C3 (amended): a BMI tip is emitted iff the bmi of the latest entry is
    truthy (so not absent, null, false, 0, NaN or the empty string) and is not
    the text '--'; it is then exactly one tip, by the value b = parseFloat(bmi):
    warning when b < 18.5, good when 18.5 <= b < 25, warning when
    25 <= b < 30, alert when b >= 30; its body holds b converted to text,
    not rounded. So 18.5 and 24.999 give good, 25.0 and 29.999 warning,
    30.0 alert. *)
Theorem C3_bmi_tip :
  (forall (questLog : list Entry) (latest : Entry),
      latest_entry questLog = Some latest ->
      let b := parseFloat (bmi latest) in
      (select BMI (generatePersonalTips questLog) <> []
       <-> ToBoolean (bmi latest) = true /\ bmi latest <> JStr "--")
      /\ (ToBoolean (bmi latest) = true -> bmi latest <> JStr "--" ->
          exists t,
            select BMI (generatePersonalTips questLog) = [t]
            /\ (Number.ltb b n18_5 = true -> type t = "warning"%string)
            /\ (Number.geb b n18_5 = true -> Number.ltb b n25 = true ->
                type t = "good"%string)
            /\ (Number.geb b n25 = true -> Number.ltb b n30 = true ->
                type t = "warning"%string)
            /\ (Number.geb b n30 = true -> type t = "alert"%string)
            /\ contains (Number.toString b) (body t) = true))
  /\ bmi_yields (lit 185 (-1)) "good" "(18.5)"
  /\ bmi_yields (lit 24999 (-3)) "good" "(24.999)"
  /\ bmi_yields (lit 250 (-1)) "warning" "(25)"
  /\ bmi_yields (lit 29999 (-3)) "warning" "(29.999)"
  /\ bmi_yields (lit 300 (-1)) "alert" "(30)"
  /\ bmi_yields (JStr "24.999") "good" "(24.999)".
Proof.
  split.
  - intros questLog latest Hl b.
    rewrite (select_parts BMI _ _ Hl). unfold bmi_part.
    rewrite <- (strict_neq_string_iff (bmi latest) "--").
    split.
    + destruct (ToBoolean (bmi latest)), (strict_neq_string (bmi latest) "--");
        cbn [andb]; split; try (intros [? ?]); try discriminate; try tauto.
    + intros -> ->. cbn [andb]. fold b. exists (bmi_tip b).
      split; [reflexivity|]. repeat split.
      * intros H. unfold bmi_tip. rewrite H. reflexivity.
      * intros H1 H2. unfold bmi_tip.
        replace (Number.ltb b n18_5) with false by (symmetry; float_order).
        rewrite H1, H2. reflexivity.
      * intros H1 H2. unfold bmi_tip.
        replace (Number.ltb b n18_5) with false by (symmetry; float_order).
        replace (Number.ltb b n25) with false by (symmetry; float_order).
        rewrite H1, H2, andb_false_r. reflexivity.
      * intros H. unfold bmi_tip.
        replace (Number.ltb b n18_5) with false by (symmetry; float_order).
        replace (Number.ltb b n25) with false by (symmetry; float_order).
        replace (Number.ltb b n30) with false by (symmetry; float_order).
        rewrite !andb_false_r. reflexivity.
      * apply body_bmi_tip.
  - repeat split; intros questLog latest Hl Hv;
      rewrite (select_parts BMI _ _ Hl); unfold bmi_part; rewrite Hv;
      match goal with
      | |- context [parseFloat ?v] => exists (bmi_tip (parseFloat v))
      end; (split; [|split]); vm_compute; reflexivity.
Qed.

Lemma C3_bmi_tip_witness :
  (exists t,
      select BMI (generatePersonalTips [with_bmi (lit 24 0)]) = [t]
      /\ contains "24" (body t) = true)
  /\ exists t,
       select BMI (generatePersonalTips [blank; with_bmi (lit 300 (-1))])
       = [t]
       /\ type t = "alert"%string /\ contains "(30)" (body t) = true.
Proof.
  destruct C3_bmi_tip as (Hgen & _ & _ & _ & _ & H30 & _). split.
  - destruct (Hgen [with_bmi (lit 24 0)] (with_bmi (lit 24 0)) eq_refl)
      as (_ & H).
    destruct H as (t & Ht & _ & _ & _ & _ & Hb);
      [reflexivity | discriminate |].
    exists t. split; [exact Ht|].
    replace "24"%string with (Number.toString (parseFloat (lit 24 0)))
      by (vm_compute; reflexivity).
    exact Hb.
  - apply (H30 [blank; with_bmi (lit 300 (-1))] (with_bmi (lit 300 (-1))));
      reflexivity.
Defined.

(** ** Heart rate *)

Lemma body_hr_tip (hr : Number.t) :
  contains (Number.toString hr) (body (hr_tip hr)) = true.
Proof.
  unfold hr_tip.
  repeat match goal with
  | |- context [if ?c then _ else _] => destruct c
  end; apply contains_middle.
Qed.

(** C4: when avgHR is not null, the heart-rate tip is the one of the bucket
    of Math.round(avgHR): info below 60, good from 60 to 100, alert above
    100, and it is a function of the rounded value alone. A log whose only
    heartRate is 59.6 has the rounded value 60 and the good tip, although
    59.6 itself is below 60. *)
Theorem C4_heart_rate_tip :
  (forall (questLog : list Entry) (a : Number.t),
      questLog <> [] ->
      avgHR questLog = Some a ->
      let hr := Number.round a in
      exists t,
        select HeartRate (generatePersonalTips questLog) = [t]
        /\ t = hr_tip hr
        /\ (Number.ltb hr n60 = true -> type t = "info"%string)
        /\ (Number.geb hr n60 = true -> Number.leb hr n100 = true ->
            type t = "good"%string)
        /\ (Number.gtb hr n100 = true -> type t = "alert"%string)
        /\ contains (Number.toString hr) (body t) = true)
  /\ (forall e : Entry,
         heartRate e = lit 596 (-1) ->
         avgHR [e] = Some (Number.of_decimal false 596 (-1))
         /\ Number.ltb (Number.of_decimal false 596 (-1)) n60 = true
         /\ Number.round (Number.of_decimal false 596 (-1)) = n60
         /\ exists t,
              select HeartRate (generatePersonalTips [e]) = [t]
              /\ type t = "good"%string
              /\ contains "heart rate of 60 bpm" (body t) = true).
Proof.
  split.
  - intros questLog a Hne Ha hr.
    destruct (nonempty_latest _ Hne) as [latest Hl].
    rewrite (select_parts HeartRate _ _ Hl). unfold hr_part. rewrite Ha.
    fold hr. exists (hr_tip hr).
    split; [reflexivity|]. split; [reflexivity|]. repeat split.
    + intros H. unfold hr_tip. rewrite H. reflexivity.
    + intros H1 H2. unfold hr_tip.
      replace (Number.ltb hr n60) with false by (symmetry; float_order).
      rewrite H2. reflexivity.
    + intros H. unfold hr_tip.
      replace (Number.ltb hr n60) with false by (symmetry; float_order).
      replace (Number.leb hr n100) with false by (symmetry; float_order).
      reflexivity.
    + apply body_hr_tip.
  - intros e He.
    assert (Ha : avgHR [e] = Some (Number.of_decimal false 596 (-1))).
    { rewrite avgHR_mean, readings_cons, He. vm_compute. reflexivity. }
    split; [exact Ha|].
    split; [vm_compute; reflexivity|].
    split; [vm_compute; reflexivity|].
    rewrite (select_parts HeartRate [e] e eq_refl). unfold hr_part.
    rewrite Ha.
    exists (hr_tip (Number.round (Number.of_decimal false 596 (-1)))).
    split; [reflexivity|]. split; vm_compute; reflexivity.
Qed.

Lemma C4_heart_rate_tip_witness :
  (exists t,
      select HeartRate
        (generatePersonalTips [with_heart (lit 72 0); with_heart (lit 75 0)])
      = [t]
      /\ t = hr_tip (Number.of_Z 74))
  /\ exists t,
       select HeartRate (generatePersonalTips [with_heart (lit 596 (-1))])
       = [t]
       /\ type t = "good"%string.
Proof.
  destruct C4_heart_rate_tip as [Hgen Hex]. split.
  - destruct (Hgen [with_heart (lit 72 0); with_heart (lit 75 0)]
                (Number.of_decimal false 735 (-1)))
      as (t & Ht & Heq & _); [discriminate | vm_compute; reflexivity |].
    exists t. split; [exact Ht|].
    rewrite Heq. vm_compute. reflexivity.
  - destruct (Hex (with_heart (lit 596 (-1))) eq_refl)
      as (_ & _ & _ & t & Ht & Hty & _).
    exists t. split; [exact Ht | exact Hty].
Defined.

(** ** Cycle *)

Lemma body_cycle_length (v : value) :
  contains (ToString v) (body (tip_cycle_length v)) = true.
Proof. apply contains_middle. Qed.

(** C5, as stated, fails: with tracking on, a cycleLength that is the number
    0 is present and below 21, yet the length warning is not emitted. *)
Lemma C5_counterexample :
  latest_entry log_cycle_0 = Some (with_cycle (JBool true) (lit 0 0))
  /\ present (lit 0 0) = true
  /\ lt_number (lit 0 0) n21 = true
  /\ select CycleLength (generatePersonalTips log_cycle_0) = []
  /\ generatePersonalTips log_cycle_0 = [tip_cycle_active].
Proof.
  split; [reflexivity|].
  split; [reflexivity|].
  split; [vm_compute; reflexivity|].
  split; vm_compute; reflexivity.
Qed.

(** C5 (amended): if the cycleTracking of the latest entry is truthy (true,
    for a boolean flag), the tracking-active info tip is emitted, once,
    followed by the warning tip that names the cycleLength as it was given
    iff the cycleLength is truthy (so not absent, null, 0, NaN or the empty
    string) and, as a number, below 21 or above 35; with cycleTracking true
    and cycleLength 40 the two tips come in that order, with cycleLength 28
    the first one alone; if cycleTracking is falsy no cycle tip is
    emitted. *)
Theorem C5_cycle_tips :
  (forall (questLog : list Entry) (latest : Entry),
      latest_entry questLog = Some latest ->
      let len := cycleLength latest in
      let cycle := pick is_cycle (generatePersonalTips questLog) in
      (ToBoolean (cycleTracking latest) = false -> cycle = [])
      /\ (ToBoolean (cycleTracking latest) = true ->
          ToBoolean len && (lt_number len n21 || gt_number len n35) = true ->
          cycle = [tip_cycle_active; tip_cycle_length len])
      /\ (ToBoolean (cycleTracking latest) = true ->
          ToBoolean len && (lt_number len n21 || gt_number len n35) = false ->
          cycle = [tip_cycle_active]))
  /\ type tip_cycle_active = "info"%string
  /\ (forall v, type (tip_cycle_length v) = "warning"%string
                /\ contains (ToString v) (body (tip_cycle_length v)) = true)
  /\ (forall (questLog : list Entry) (latest : Entry),
         latest_entry questLog = Some latest ->
         cycleTracking latest = JBool true ->
         (cycleLength latest = lit 40 0 ->
          pick is_cycle (generatePersonalTips questLog)
          = [tip_cycle_active; tip_cycle_length (lit 40 0)]
          /\ contains "cycle length of 40 days"
                      (body (tip_cycle_length (lit 40 0))) = true)
         /\ (cycleLength latest = lit 28 0 ->
             pick is_cycle (generatePersonalTips questLog)
             = [tip_cycle_active])).
Proof.
  assert (Hpick : forall questLog latest,
             latest_entry questLog = Some latest ->
             pick is_cycle (generatePersonalTips questLog)
             = cycle_active_part latest ++ cycle_length_part latest).
  { intros questLog latest Hl. rewrite (pick_parts _ _ _ Hl).
    cbn [is_cycle app]. rewrite app_nil_r. reflexivity. }
  split; [|split; [reflexivity|split]].
  - intros questLog latest Hl len cycle. unfold cycle.
    rewrite (Hpick _ _ Hl). unfold cycle_active_part, cycle_length_part.
    fold len. repeat split.
    + intros ->. reflexivity.
    + intros -> ->. reflexivity.
    + intros -> ->. reflexivity.
  - intros v. split; [reflexivity | apply body_cycle_length].
  - intros questLog latest Hl Ht. rewrite (Hpick _ _ Hl).
    unfold cycle_active_part, cycle_length_part. rewrite Ht. split.
    + intros ->. split; vm_compute; reflexivity.
    + intros ->. vm_compute. reflexivity.
Qed.

Lemma C5_cycle_tips_witness :
  pick is_cycle
    (generatePersonalTips [blank; with_cycle (JBool true) (lit 40 0)])
  = [tip_cycle_active; tip_cycle_length (lit 40 0)]
  /\ pick is_cycle (generatePersonalTips [with_cycle (JBool true) (lit 28 0)])
     = [tip_cycle_active]
  /\ pick is_cycle (generatePersonalTips [with_cycle (JBool false) (lit 40 0)])
     = [].
Proof.
  destruct C5_cycle_tips as (Hgen & _ & _ & Hex). split; [|split].
  - apply (Hex [blank; with_cycle (JBool true) (lit 40 0)]
               (with_cycle (JBool true) (lit 40 0)) eq_refl eq_refl).
    reflexivity.
  - apply (Hex [with_cycle (JBool true) (lit 28 0)]
               (with_cycle (JBool true) (lit 28 0)) eq_refl eq_refl).
    reflexivity.
  - apply (Hgen [with_cycle (JBool false) (lit 40 0)]
                (with_cycle (JBool false) (lit 40 0)) eq_refl).
    reflexivity.
Defined.

(** ** Consistency, order and size *)

Lemma select_consistency (questLog : list Entry) :
  select Consistency (generatePersonalTips questLog)
  = consistency_part questLog.
Proof.
  destruct questLog as [|first rest]; [reflexivity|].
  apply (select_parts Consistency (first :: rest) (last rest first) eq_refl).
Qed.

(** C6: a consistency tip is emitted iff the log has at least 3 entries; it
    is then one tip, of severity good, whose body holds the number of
    entries in decimal. A log of 2 entries has none, a log of 3 entries has
    one, with "3" in its body. *)
Theorem C6_consistency_tip :
  (forall questLog : list Entry,
      select Consistency (generatePersonalTips questLog)
      = if (3 <=? List.length questLog)%nat
        then [tip_consistency (List.length questLog)] else [])
  /\ (forall n : nat,
         type (tip_consistency n) = "good"%string
         /\ contains (Digits.of_N (N.of_nat n)) (body (tip_consistency n))
            = true)
  /\ (forall questLog : list Entry,
         List.length questLog = 2 ->
         select Consistency (generatePersonalTips questLog) = [])
  /\ (forall questLog : list Entry,
         List.length questLog = 3 ->
         exists t,
           select Consistency (generatePersonalTips questLog) = [t]
           /\ type t = "good"%string
           /\ contains "logged 3 quests" (body t) = true).
Proof.
  split; [exact select_consistency|]. split; [|split].
  - intros n. split; [reflexivity | apply contains_middle].
  - intros questLog H. rewrite select_consistency. unfold consistency_part.
    rewrite H. reflexivity.
  - intros questLog H. rewrite select_consistency. unfold consistency_part.
    rewrite H. exists (tip_consistency 3).
    split; [reflexivity|]. split; vm_compute; reflexivity.
Qed.

Lemma C6_consistency_tip_witness :
  select Consistency (generatePersonalTips [blank; blank]) = []
  /\ exists t,
       select Consistency (generatePersonalTips [blank; blank; blank]) = [t]
       /\ type t = "good"%string.
Proof.
  destruct C6_consistency_tip as (_ & _ & H2 & H3). split.
  - apply (H2 [blank; blank]). reflexivity.
  - destruct (H3 [blank; blank; blank] eq_refl) as (t & Ht & Hty & _).
    exists t. split; [exact Ht | exact Hty].
Defined.

(** C8: the tips come out in the order BMI, sleep, heart rate, cycle
    (tracking-active, then the length warning), consistency: the result is
    its BMI tips, then its sleep tips, and so on, and it is what the five
    blocks of the source append one after the other, a block whose test
    fails appending nothing. *)
Theorem C8_fixed_order (questLog : list Entry) :
  let out := generatePersonalTips questLog in
  out = select BMI out ++ select Sleep out ++ select HeartRate out
        ++ select CycleActive out ++ select CycleLength out
        ++ select Consistency out
  /\ forall latest : Entry,
       latest_entry questLog = Some latest ->
       out = bmi_block latest [] ++ sleep_block (avgSleep questLog) []
             ++ hr_block (avgHR questLog) [] ++ cycle_block latest []
             ++ consistency_block (List.length questLog) [].
Proof.
  cbv zeta. split.
  - destruct questLog as [|first rest]; [reflexivity|].
    rewrite !(select_parts _ (first :: rest) (last rest first) eq_refl).
    apply (generatePersonalTips_eq (first :: rest) (last rest first) eq_refl).
  - intros latest Hl. destruct questLog as [|first rest]; [discriminate|].
    injection Hl as <-. apply generatePersonalTips_parts.
Qed.

Lemma C8_fixed_order_witness :
  generatePersonalTips log_all
  = bmi_block (last log_all blank) [] ++ sleep_block (avgSleep log_all) []
    ++ hr_block (avgHR log_all) [] ++ cycle_block (last log_all blank) []
    ++ consistency_block (List.length log_all) [].
Proof.
  apply (C8_fixed_order log_all). reflexivity.
Defined.

(** ** Equality by value *)

Lemma bind_ext {A B : Type} (c : Checked.outcome A)
  (k1 k2 : A -> Checked.outcome B) :
  (forall a, k1 a = k2 a) -> Checked.bind c k1 = Checked.bind c k2.
Proof. intros H. destruct c; [apply H | reflexivity]. Qed.

Lemma same_value_ToString (v1 : Json.t) :
  forall v2, same_value v1 v2 -> Checked.ToString v1 = Checked.ToString v2.
Proof.
  induction v1 as [|b|x|s|items IH|props] using json_induction;
    intros v2 H; inversion H; subst; try reflexivity.
  - match goal with H2 : Forall2 same_value _ _ |- _ => rename H2 into Hitems end.
    cbn [Checked.ToString]. clear H.
    induction Hitems as [|x y l l' Hxy Hl IHl]; [reflexivity|].
    apply Forall_cons_iff in IH as [Hx IH].
    assert (Hnext :
      match x with
      | Json.Null => Checked.Normal ""%string
      | _ => Checked.ToString x
      end
      = match y with
        | Json.Null => Checked.Normal ""%string
        | _ => Checked.ToString y
        end).
    { inversion Hxy; subst; try reflexivity; apply Hx; exact Hxy. }
    rewrite Hnext. apply bind_ext. intros next.
    destruct Hl as [|x' y' l l' Hxy' Hl]; [reflexivity|].
    rewrite (IHl IH). reflexivity.
  - match goal with
    | H2 : forall name : string, same_property _ _ |- _ =>
        specialize (H2 "toString"%string); cbn [Checked.ToString];
        inversion H2; reflexivity
    end.
Qed.

Lemma same_property_ToBoolean (f1 f2 : option Json.t) :
  same_property f1 f2 -> Checked.ToBoolean f1 = Checked.ToBoolean f2.
Proof.
  intros [|v1 v2 H]; [reflexivity|]. destruct H; reflexivity.
Qed.

Lemma same_property_ToPrimitive (f1 f2 : option Json.t) :
  same_property f1 f2 -> Checked.ToPrimitive f1 = Checked.ToPrimitive f2.
Proof.
  intros [|v1 v2 H]; [reflexivity|].
  pose proof (same_value_ToString _ _ H) as Hs.
  destruct H; try reflexivity; unfold Checked.ToPrimitive; rewrite Hs;
    reflexivity.
Qed.

Lemma same_property_strict_neq_string (f1 f2 : option Json.t) (s : string) :
  same_property f1 f2 ->
  Checked.strict_neq_string f1 s = Checked.strict_neq_string f2 s.
Proof.
  intros [|v1 v2 H]; [reflexivity|]. destruct H; reflexivity.
Qed.

(** A read of a property on two entries that are equal by value, followed
    by computations that agree on values equal by value. *)
Lemma same_value_get {B : Type} (e1 e2 : Json.t) (name : string)
  (k1 k2 : option Json.t -> Checked.outcome B) :
  same_value e1 e2 ->
  (forall f1 f2, same_property f1 f2 -> k1 f1 = k2 f2) ->
  Checked.bind (Checked.get e1 name) k1
  = Checked.bind (Checked.get e2 name) k2.
Proof.
  intros H Hk. destruct H; cbn [Checked.get Checked.bind];
    try reflexivity; try (apply Hk; constructor).
  apply Hk. match goal with H : forall _, _ |- _ => apply H end.
Qed.

Lemma same_value_add_entry (acc : Sums) (e1 e2 : Json.t) :
  same_value e1 e2 -> Checked.add_entry acc e1 = Checked.add_entry acc e2.
Proof.
  intros H. unfold Checked.add_entry, Checked.parseFloat.
  apply (same_value_get _ _ _ _ _ H). intros s1 s2 Hs.
  rewrite (same_property_ToBoolean _ _ Hs), (same_property_ToPrimitive _ _ Hs).
  apply bind_ext. intros acc'.
  apply (same_value_get _ _ _ _ _ H). intros h1 h2 Hh.
  rewrite (same_property_ToBoolean _ _ Hh), (same_property_ToPrimitive _ _ Hh).
  reflexivity.
Qed.

Lemma same_value_sums (log1 log2 : list Json.t) :
  Forall2 same_value log1 log2 ->
  forall acc : Checked.outcome Sums,
    fold_left (fun acc entry => Checked.bind acc (fun a => Checked.add_entry a entry))
              log1 acc
    = fold_left (fun acc entry => Checked.bind acc (fun a => Checked.add_entry a entry))
                log2 acc.
Proof.
  induction 1 as [|e1 e2 l1 l2 He _ IH]; intros acc; [reflexivity|].
  cbn [fold_left].
  rewrite (bind_ext acc (fun a => Checked.add_entry a e1)
                        (fun a => Checked.add_entry a e2))
    by (intros a; apply same_value_add_entry, He).
  apply IH.
Qed.

Lemma same_value_bmi_block (e1 e2 : Json.t) (tips : list Tip) :
  same_value e1 e2 -> Checked.bmi_block e1 tips = Checked.bmi_block e2 tips.
Proof.
  intros H. unfold Checked.bmi_block, Checked.parseFloat.
  apply (same_value_get _ _ _ _ _ H). intros v1 v2 Hv.
  rewrite (same_property_ToBoolean _ _ Hv), (same_property_ToPrimitive _ _ Hv),
    (same_property_strict_neq_string _ _ _ Hv).
  reflexivity.
Qed.

Lemma same_value_cycle_block (e1 e2 : Json.t) (tips : list Tip) :
  same_value e1 e2 ->
  Checked.cycle_block e1 tips = Checked.cycle_block e2 tips.
Proof.
  intros H. unfold Checked.cycle_block, Checked.lt_number, Checked.gt_number.
  apply (same_value_get _ _ _ _ _ H). intros t1 t2 Ht.
  rewrite (same_property_ToBoolean _ _ Ht).
  destruct (Checked.ToBoolean t2); [|reflexivity].
  apply (same_value_get _ _ _ _ _ H). intros l1 l2 Hl.
  rewrite (same_property_ToBoolean _ _ Hl), (same_property_ToPrimitive _ _ Hl).
  reflexivity.
Qed.

Lemma same_value_last (l1 l2 : list Json.t) (d1 d2 : Json.t) :
  Forall2 same_value l1 l2 -> same_value d1 d2 ->
  same_value (last l1 d1) (last l2 d2).
Proof.
  intros H Hd. induction H as [|a b l l' Hab Hl IH]; [exact Hd|].
  destruct Hl as [|a' b' l l' Hab' Hl]; [exact Hab | exact IH].
Qed.


Lemma log_by_value_same : Forall2 same_value log_by_value_1 log_by_value_2.
Proof.
  constructor; [|constructor; [|constructor]].
  - apply same_obj. intros name. cbn [Checked.own].
    destruct (String.eqb_spec "date" name) as [<-|_];
      [cbn; repeat constructor|].
    destruct (String.eqb_spec "sleepHours" name) as [<-|_];
      [cbn; repeat constructor|].
    destruct (String.eqb_spec "heartRate" name) as [<-|_];
      repeat constructor.
  - apply same_obj. intros name. cbn [Checked.own].
    destruct (String.eqb "bmi" name); repeat constructor.
Qed.


(** ** The types of the tips *)

Lemma type_bmi_tip (b : Number.t) : type_ok (bmi_tip b).
Proof.
  unfold bmi_tip, type_ok.
  repeat match goal with
  | |- context [if ?c then _ else _] => destruct c
  end; cbn; tauto.
Qed.

Lemma type_sleep_tip (a : Number.t) : type_ok (sleep_tip a).
Proof.
  unfold sleep_tip, type_ok.
  repeat match goal with
  | |- context [if ?c then _ else _] => destruct c
  end; cbn; tauto.
Qed.

Lemma type_hr_tip (hr : Number.t) : type_ok (hr_tip hr).
Proof.
  unfold hr_tip, type_ok.
  repeat match goal with
  | |- context [if ?c then _ else _] => destruct c
  end; cbn; tauto.
Qed.

Lemma type_cycle_active : type_ok tip_cycle_active.
Proof. unfold type_ok. cbn. tauto. Qed.

Lemma type_cycle_length (v : value) : type_ok (tip_cycle_length v).
Proof. unfold type_ok. cbn [type tip_cycle_length In]. tauto. Qed.

Lemma type_consistency (n : nat) : type_ok (tip_consistency n).
Proof. unfold type_ok. cbn [type tip_consistency In]. tauto. Qed.

Lemma Forall_one (P : Tip -> Prop) (t : Tip) : P t -> Forall P [t].
Proof. intros H. apply Forall_cons; [exact H | apply Forall_nil]. Qed.

Lemma Forall_when (P : Tip -> Prop) (b : bool) (t : Tip) :
  P t -> Forall P (if b then [t] else []).
Proof. intros H. destruct b; [apply Forall_one, H | apply Forall_nil]. Qed.

Lemma Forall_both (P : Tip -> Prop) (l1 l2 : list Tip) :
  Forall P l1 -> Forall P l2 -> Forall P (l1 ++ l2).
Proof. intros H1 H2. apply Forall_app. split; assumption. Qed.

Lemma types_of_parts (questLog : list Entry) (latest : Entry) :
  Forall type_ok
    (bmi_part latest ++ sleep_part questLog ++ hr_part questLog
     ++ cycle_active_part latest ++ cycle_length_part latest
     ++ consistency_part questLog).
Proof.
  unfold bmi_part, sleep_part, hr_part, cycle_active_part, cycle_length_part,
    consistency_part.
  apply Forall_both; [|apply Forall_both; [|apply Forall_both;
    [|apply Forall_both; [|apply Forall_both]]]].
  - apply Forall_when, type_bmi_tip.
  - destruct (avgSleep questLog);
      [apply Forall_one, type_sleep_tip | apply Forall_nil].
  - destruct (avgHR questLog);
      [apply Forall_one, type_hr_tip | apply Forall_nil].
  - apply Forall_when, type_cycle_active.
  - apply Forall_when, type_cycle_length.
  - apply Forall_when, type_consistency.
Qed.

(** C10: the result has at most 6 tips: at most one BMI tip, one sleep tip,
    one heart-rate tip and one consistency tip, at most two cycle tips, and
    nothing else; the type of every tip is 'good', 'warning', 'alert' or
    'info'. Six tips do come out of a log that meets every test. *)
Theorem C10_at_most_six :
  (forall questLog : list Entry,
      let out := generatePersonalTips questLog in
      (List.length out <= 6)%nat
      /\ (List.length (select BMI out) <= 1)%nat
      /\ (List.length (select Sleep out) <= 1)%nat
      /\ (List.length (select HeartRate out) <= 1)%nat
      /\ (List.length (pick is_cycle out) <= 2)%nat
      /\ (List.length (select Consistency out) <= 1)%nat
      /\ List.length out
         = (List.length (select BMI out) + List.length (select Sleep out)
            + List.length (select HeartRate out)
            + List.length (pick is_cycle out)
            + List.length (select Consistency out))%nat
      /\ Forall type_ok out)
  /\ List.length (generatePersonalTips log_all) = 6%nat.
Proof.
  split; [|vm_compute; reflexivity].
  intros questLog. cbv zeta. destruct questLog as [|first rest].
  - cbn. repeat split; try lia. apply Forall_nil.
  - pose proof (eq_refl : latest_entry (first :: rest) = Some (last rest first))
      as Hl.
    rewrite !(select_parts _ _ _ Hl), (pick_parts _ _ _ Hl).
    rewrite (generatePersonalTips_eq _ _ Hl).
    cbn [is_cycle app]. rewrite app_nil_r.
    pose proof (types_of_parts (first :: rest) (last rest first)) as Hty.
    rewrite !length_app.
    unfold bmi_part, sleep_part, hr_part, cycle_active_part,
      cycle_length_part, consistency_part in *.
    destruct (ToBoolean (bmi (last rest first))
              && strict_neq_string (bmi (last rest first)) "--"),
      (avgSleep (first :: rest)), (avgHR (first :: rest)),
      (ToBoolean (cycleTracking (last rest first))),
      (ToBoolean (cycleLength (last rest first))
       && (lt_number (cycleLength (last rest first)) n21
           || gt_number (cycleLength (last rest first)) n35)),
      (3 <=? List.length (first :: rest))%nat;
      cbn [andb List.length app Nat.add];
      (split; [lia|]); (split; [lia|]); (split; [lia|]); (split; [lia|]);
      (split; [lia|]); (split; [lia|]); (split; [lia|]); exact Hty.
Qed.

(** * Further properties of the tip engine *)

Lemma mean_none (xs : list Number.t) : mean xs = None <-> xs = [].
Proof.
  destruct xs as [|x xs]; cbn [mean]; split; intros H;
    try reflexivity; discriminate.
Qed.

Lemma readings_nil (field : Entry -> value) (questLog : list Entry) :
  readings field ToBoolean questLog = []
  <-> Forall (fun e => ToBoolean (field e) = false) questLog.
Proof.
  induction questLog as [|e l IH]; [split; [constructor | reflexivity]|].
  rewrite readings_cons. destruct (ToBoolean (field e)) eqn:He.
  - split; [discriminate|]. intros H. inversion H; subst. congruence.
  - rewrite IH. split; intros H; [constructor; assumption|].
    inversion H; assumption.
Qed.

Lemma readings_app (field : Entry -> value) (l1 l2 : list Entry) :
  readings field ToBoolean (l1 ++ l2)
  = readings field ToBoolean l1 ++ readings field ToBoolean l2.
Proof.
  unfold readings. rewrite filter_app, map_app. reflexivity.
Qed.

(** The tips depend only on the number of entries, on the bmi, cycleTracking
    and cycleLength of the latest entry, and on the truthy sleepHours and
    heartRate values as parsed, in their order: what the earlier entries
    hold in bmi, cycleTracking and cycleLength never matters. *)
Theorem tips_from_latest_and_readings
  (log1 log2 : list Entry) (latest1 latest2 : Entry) :
  latest_entry log1 = Some latest1 ->
  latest_entry log2 = Some latest2 ->
  List.length log1 = List.length log2 ->
  bmi latest1 = bmi latest2 ->
  cycleTracking latest1 = cycleTracking latest2 ->
  cycleLength latest1 = cycleLength latest2 ->
  readings sleepHours ToBoolean log1 = readings sleepHours ToBoolean log2 ->
  readings heartRate ToBoolean log1 = readings heartRate ToBoolean log2 ->
  generatePersonalTips log1 = generatePersonalTips log2.
Proof.
  intros H1 H2 Hlen Hb Ht Hc Hs Hh.
  rewrite (generatePersonalTips_eq _ _ H1), (generatePersonalTips_eq _ _ H2).
  unfold bmi_part, sleep_part, hr_part, cycle_active_part, cycle_length_part,
    consistency_part.
  rewrite !avgSleep_mean, !avgHR_mean, Hlen, Hb, Ht, Hc, Hs, Hh.
  reflexivity.
Qed.

Lemma tips_from_latest_and_readings_witness :
  generatePersonalTips
    [{| bmi := lit 31 0; sleepHours := JStr "7"; heartRate := JNull;
        cycleTracking := JBool true; cycleLength := lit 40 0 |};
     with_bmi (lit 22 0)]
  = generatePersonalTips
      [{| bmi := JStr "--"; sleepHours := lit 7 0; heartRate := JUndefined;
          cycleTracking := JBool false; cycleLength := JUndefined |};
       with_bmi (lit 22 0)].
Proof.
  apply (tips_from_latest_and_readings _ _ (with_bmi (lit 22 0))
           (with_bmi (lit 22 0)));
    [reflexivity | reflexivity | reflexivity | reflexivity | reflexivity
    | reflexivity | vm_compute; reflexivity | vm_compute; reflexivity].
Defined.

(** A non-empty log gives no tip at all exactly when it has fewer than 3
    entries, its latest entry has a bmi that is falsy or '--' and a falsy
    cycleTracking, and no entry has a truthy sleepHours or heartRate. *)
Theorem no_tips_iff (questLog : list Entry) (latest : Entry) :
  latest_entry questLog = Some latest ->
  generatePersonalTips questLog = []
  <-> (List.length questLog < 3)%nat
      /\ ToBoolean (bmi latest) && strict_neq_string (bmi latest) "--" = false
      /\ ToBoolean (cycleTracking latest) = false
      /\ Forall (fun e => ToBoolean (sleepHours e) = false
                          /\ ToBoolean (heartRate e) = false) questLog.
Proof.
  intros Hl. rewrite (generatePersonalTips_eq _ _ Hl).
  unfold bmi_part, sleep_part, hr_part, cycle_active_part, cycle_length_part,
    consistency_part.
  rewrite avgSleep_mean, avgHR_mean.
  assert (Hall : Forall (fun e => ToBoolean (sleepHours e) = false
                                  /\ ToBoolean (heartRate e) = false) questLog
                 <-> readings sleepHours ToBoolean questLog = []
                     /\ readings heartRate ToBoolean questLog = []).
  { rewrite !readings_nil, !Forall_forall. firstorder. }
  rewrite Hall. clear Hall.
  destruct (Nat.leb_spec 3 (List.length questLog)) as [Hlen|Hlen];
    destruct (ToBoolean (bmi latest) && strict_neq_string (bmi latest) "--");
    destruct (ToBoolean (cycleTracking latest)); cbn [andb app];
    destruct (readings sleepHours ToBoolean questLog) as [|x xs];
    destruct (readings heartRate ToBoolean questLog) as [|y ys];
    cbn [mean app];
    try (match goal with
         | |- context [if ?b then _ else _] => destruct b
         end);
    cbn [app]; split; intros H; try discriminate; try reflexivity;
    try (repeat split; try reflexivity; lia);
    try (destruct H as (? & ? & ? & ? & ?); try discriminate; lia).
Qed.

Lemma no_tips_iff_witness :
  generatePersonalTips
    [with_sleep (lit 0 0); with_bmi (JStr "--")] = [].
Proof.
  apply (no_tips_iff [with_sleep (lit 0 0); with_bmi (JStr "--")]
           (with_bmi (JStr "--")) eq_refl).
  split; [cbn; lia|]. split; [reflexivity|]. split; [reflexivity|].
  repeat constructor.
Defined.

(** A log of at least 3 entries always gives a tip, and its last tip is the
    streak tip with the number of entries. *)
Theorem streak_tip_is_last (questLog : list Entry) :
  (3 <= List.length questLog)%nat ->
  exists earlier,
    generatePersonalTips questLog
    = earlier ++ [tip_consistency (List.length questLog)].
Proof.
  intros Hlen. destruct questLog as [|first rest]; [cbn in Hlen; lia|].
  rewrite (generatePersonalTips_eq (first :: rest) (last rest first) eq_refl).
  unfold consistency_part.
  replace (3 <=? List.length (first :: rest))%nat with true
    by (symmetry; apply Nat.leb_le; exact Hlen).
  exists (bmi_part (last rest first) ++ sleep_part (first :: rest)
          ++ hr_part (first :: rest) ++ cycle_active_part (last rest first)
          ++ cycle_length_part (last rest first)).
  rewrite <- !app_assoc. reflexivity.
Qed.

Lemma streak_tip_is_last_witness :
  exists earlier,
    generatePersonalTips log_all = earlier ++ [tip_consistency 3].
Proof.
  apply (streak_tip_is_last log_all). cbn. lia.
Defined.

(** An entry whose sleepHours is falsy does not enter the sleep average,
    wherever it stands in the log, and likewise for heartRate: a value that
    was not recorded is skipped, not counted as 0. *)
Theorem falsy_values_are_skipped (before after : list Entry) (e : Entry) :
  (ToBoolean (sleepHours e) = false ->
   avgSleep (before ++ e :: after) = avgSleep (before ++ after))
  /\ (ToBoolean (heartRate e) = false ->
      avgHR (before ++ e :: after) = avgHR (before ++ after)).
Proof.
  split; intros H.
  - rewrite !avgSleep_mean, !readings_app, readings_cons, H. reflexivity.
  - rewrite !avgHR_mean, !readings_app, readings_cons, H. reflexivity.
Qed.

Lemma falsy_values_are_skipped_witness :
  avgSleep ([with_sleep (lit 6 0)] ++ with_sleep (JStr "")
            :: [with_sleep (lit 8 0)])
  = avgSleep ([with_sleep (lit 6 0)] ++ [with_sleep (lit 8 0)])
  /\ avgHR ([with_heart (lit 60 0)] ++ blank :: [])
     = avgHR ([with_heart (lit 60 0)] ++ []).
Proof.
  split.
  - apply (falsy_values_are_skipped [with_sleep (lit 6 0)]
             [with_sleep (lit 8 0)] (with_sleep (JStr ""))).
    reflexivity.
  - apply (falsy_values_are_skipped [with_heart (lit 60 0)] [] blank).
    reflexivity.
Defined.

(** ** The buckets, read both ways *)

(** Turns every comparison of the context and of the goal into a statement
    on the keys, and decides it. *)
Ltac float_facts :=
  unfold Number.geb, Number.gtb, Number.ltb, Number.leb in *;
  repeat match goal with
  | H : SFltb ?a ?b = true |- _ => apply (OrderFacts.ltb_iff a b) in H
  | H : SFleb ?a ?b = true |- _ => apply (OrderFacts.leb_iff a b) in H
  | H : SFltb ?a ?b = false |- _ =>
      assert (~ Order.lt a b)
        by (let X := fresh in
            intro X; apply (OrderFacts.ltb_iff a b) in X;
            unfold Number.ltb in X; congruence);
      clear H
  | H : SFleb ?a ?b = false |- _ =>
      assert (~ Order.le a b)
        by (let X := fresh in
            intro X; apply (OrderFacts.leb_iff a b) in X;
            unfold Number.leb in X; congruence);
      clear H
  | |- SFltb ?a ?b = true => apply (OrderFacts.ltb_iff a b)
  | |- SFleb ?a ?b = true => apply (OrderFacts.leb_iff a b)
  | |- SFltb ?a ?b = false =>
      let E := fresh "E" in
      destruct (SFltb a b) eqn:E; [exfalso | reflexivity]
  | |- SFleb ?a ?b = false =>
      let E := fresh "E" in
      destruct (SFleb a b) eqn:E; [exfalso | reflexivity]
  end;
  unfold Order.lt, Order.le in *;
  repeat match goal with
  | H : context [Order.key ?x] |- _ =>
      is_var x; destruct x as [[|]|[|]| |[|] ? ?]; cbn in *
  | |- context [Order.key ?x] =>
      is_var x; destruct x as [[|]|[|]| |[|] ? ?]; cbn in *
  end;
  cbn in *; try contradiction; try congruence; try lia; try tauto.

(** A Number that is not NaN is below a literal or not below it. *)
Lemma not_ltb_geb (a c : Number.t) :
  a <> Number.NaN -> c <> Number.NaN ->
  Number.ltb a c = false -> Number.geb a c = true.
Proof. intros Ha Hc H. float_facts. Qed.

Lemma not_leb_gtb (a c : Number.t) :
  a <> Number.NaN -> c <> Number.NaN ->
  Number.leb a c = false -> Number.gtb a c = true.
Proof. intros Ha Hc H. float_facts. Qed.

Lemma nan_or_not (a : Number.t) : a = Number.NaN \/ a <> Number.NaN.
Proof. destruct a; try (right; discriminate). left. reflexivity. Qed.

(** Closes a goal that is an equation between two type texts, or that
    follows from comparisons that cannot hold together. *)
Ltac bucket_done :=
  try reflexivity;
  try discriminate;
  try solve [exfalso;
             repeat match goal with
             | H : _ /\ _ |- _ => destruct H
             | H : _ \/ _ |- _ => destruct H
             end;
             subst; try discriminate; float_facts].

(** The severity of the sleep tip tells the range of the average, both ways:
    alert exactly when avgSleep < 6, good exactly when 7 <= avgSleep <= 9,
    warning exactly when 6 <= avgSleep < 7, or avgSleep > 9, or the average
    is NaN. *)
Theorem sleep_severity_iff (questLog : list Entry) (a : Number.t) (t : Tip) :
  avgSleep questLog = Some a ->
  In t (select Sleep (generatePersonalTips questLog)) ->
  (type t = "alert"%string <-> Number.ltb a n6 = true)
  /\ (type t = "good"%string
      <-> Number.geb a n7 = true /\ Number.leb a n9 = true)
  /\ (type t = "warning"%string
      <-> (Number.geb a n6 = true /\ Number.ltb a n7 = true)
          \/ Number.gtb a n9 = true \/ a = Number.NaN).
Proof.
  intros Ha Hin.
  destruct questLog as [|first rest]; [discriminate Ha|].
  rewrite (select_parts Sleep (first :: rest) (last rest first) eq_refl) in Hin.
  unfold sleep_part in Hin. rewrite Ha in Hin. destruct Hin as [<-|[]].
  clear Ha. unfold sleep_tip.
  destruct (nan_or_not a) as [Hn|Hn].
  { subst a. cbn. (split; [|split]); split; intros H; bucket_done.
    right. right. reflexivity. }
  destruct (Number.ltb a n6) eqn:H6;
    [|destruct (Number.ltb a n7) eqn:H7;
      [|destruct (Number.leb a n9) eqn:H9]];
    cbn [type tip_sleep_low tip_sleep_almost tip_sleep_good tip_sleep_over].
  - (split; [|split]); split; intros H; bucket_done.
  - (split; [|split]); split; intros H; bucket_done.
    left. split; [apply not_ltb_geb; [assumption|discriminate|assumption]
                 | reflexivity].
  - (split; [|split]); split; intros H; bucket_done.
    split; [apply not_ltb_geb; [assumption|discriminate|assumption]
           | reflexivity].
  - (split; [|split]); split; intros H; bucket_done.
    right. left. apply not_leb_gtb; [assumption|discriminate|assumption].
Qed.

(** The severity of the BMI tip tells the range of b = parseFloat(bmi),
    both ways: good exactly when 18.5 <= b < 25, warning exactly when
    b < 18.5 or 25 <= b < 30, alert exactly when b >= 30 or b is NaN. *)
Theorem bmi_severity_iff (questLog : list Entry) (latest : Entry) (t : Tip) :
  latest_entry questLog = Some latest ->
  In t (select BMI (generatePersonalTips questLog)) ->
  let b := parseFloat (bmi latest) in
  (type t = "good"%string
   <-> Number.geb b n18_5 = true /\ Number.ltb b n25 = true)
  /\ (type t = "alert"%string <-> Number.geb b n30 = true \/ b = Number.NaN)
  /\ (type t = "warning"%string
      <-> Number.ltb b n18_5 = true
          \/ (Number.geb b n25 = true /\ Number.ltb b n30 = true)).
Proof.
  intros Hl Hin. rewrite (select_parts BMI _ _ Hl) in Hin.
  unfold bmi_part in Hin.
  destruct (ToBoolean (bmi latest) && strict_neq_string (bmi latest) "--");
    [|destruct Hin].
  destruct Hin as [<-|[]]. cbv zeta.
  generalize (parseFloat (bmi latest)). intros b. unfold bmi_tip.
  destruct (nan_or_not b) as [Hn|Hn].
  { subst b. cbn. (split; [|split]); split; intros H; bucket_done.
    right. reflexivity. }
  destruct (Number.ltb b n18_5) eqn:H1, (Number.geb b n18_5) eqn:H2,
    (Number.ltb b n25) eqn:H3, (Number.geb b n25) eqn:H4,
    (Number.ltb b n30) eqn:H5;
    cbn [andb type tip_bmi_under tip_bmi_normal tip_bmi_over tip_bmi_obese];
    first
      [ solve [exfalso; float_facts]
      | (split; [|split]); split; intros H; bucket_done;
        first
          [ split; reflexivity
          | left; reflexivity
          | right; split; reflexivity
          | left; apply not_ltb_geb; [assumption|discriminate|assumption] ] ].
Qed.

Lemma bmi_severity_iff_witness :
  type (tip_bmi_normal (Number.of_Z 22)) = "good"%string
  <-> Number.geb (parseFloat (lit 22 0)) n18_5 = true
      /\ Number.ltb (parseFloat (lit 22 0)) n25 = true.
Proof.
  apply (bmi_severity_iff [with_bmi (lit 22 0)] (with_bmi (lit 22 0))
           (tip_bmi_normal (Number.of_Z 22)) eq_refl).
  vm_compute. left. reflexivity.
Defined.

Lemma sleep_severity_iff_witness :
  type (tip_sleep_low (Number.of_Z 5)) = "alert"%string
  <-> Number.ltb (Number.of_Z 5) n6 = true.
Proof.
  apply (sleep_severity_iff [with_sleep (lit 5 0)] (Number.of_Z 5)
           (tip_sleep_low (Number.of_Z 5))).
  - vm_compute. reflexivity.
  - vm_compute. left. reflexivity.
Defined.

(** The severity of the heart-rate tip tells the range of
    hr = Math.round(avgHR), both ways: info exactly when hr < 60, good
    exactly when 60 <= hr <= 100, alert exactly when hr > 100 or hr is
    NaN. *)
Theorem hr_severity_iff (questLog : list Entry) (a : Number.t) (t : Tip) :
  avgHR questLog = Some a ->
  In t (select HeartRate (generatePersonalTips questLog)) ->
  let hr := Number.round a in
  (type t = "info"%string <-> Number.ltb hr n60 = true)
  /\ (type t = "good"%string
      <-> Number.geb hr n60 = true /\ Number.leb hr n100 = true)
  /\ (type t = "alert"%string
      <-> Number.gtb hr n100 = true \/ hr = Number.NaN).
Proof.
  intros Ha Hin.
  destruct questLog as [|first rest]; [discriminate Ha|].
  rewrite (select_parts HeartRate (first :: rest) (last rest first) eq_refl)
    in Hin.
  unfold hr_part in Hin. rewrite Ha in Hin. destruct Hin as [<-|[]].
  clear Ha. cbv zeta. generalize (Number.round a). intros hr.
  unfold hr_tip.
  destruct (nan_or_not hr) as [Hn|Hn].
  { subst hr. cbn. (split; [|split]); split; intros H; bucket_done.
    right. reflexivity. }
  destruct (Number.ltb hr n60) eqn:H1;
    [|destruct (Number.leb hr n100) eqn:H2];
    cbn [type tip_hr_low tip_hr_normal tip_hr_high];
    (split; [|split]); split; intros H; bucket_done.
  - split; [apply not_ltb_geb; [assumption|discriminate|assumption]
           | reflexivity].
  - left. apply not_leb_gtb; [assumption|discriminate|assumption].
Qed.

Lemma hr_severity_iff_witness :
  type (tip_hr_high (Number.of_Z 120)) = "alert"%string
  <-> Number.gtb (Number.round (Number.of_Z 120)) n100 = true
      \/ Number.round (Number.of_Z 120) = Number.NaN.
Proof.
  apply (hr_severity_iff [with_heart (lit 120 0)] (Number.of_Z 120)
           (tip_hr_high (Number.of_Z 120))).
  - vm_compute. reflexivity.
  - vm_compute. left. reflexivity.
Defined.

(** ** Texts without markup *)

Lemma plain_app (a b : string) : plain (a ++ b)%string = plain a && plain b.
Proof.
  induction a as [|c a IH]; [reflexivity|].
  cbn [append plain]. rewrite IH. apply andb_assoc.
Qed.

Lemma plain_uint (d : Decimal.uint) : plain (NilEmpty.string_of_uint d) = true.
Proof. induction d; cbn; auto. Qed.

Lemma plain_of_N (n : N) : plain (Digits.of_N n) = true.
Proof. apply plain_uint. Qed.

Lemma plain_of_Z (n : Z) : plain (Digits.of_Z n) = true.
Proof. apply plain_uint. Qed.

Lemma plain_zeros (n : nat) : plain (Digits.zeros n) = true.
Proof. induction n; [reflexivity | exact IHn]. Qed.

Lemma plain_take (n : nat) (s : string) :
  plain s = true -> plain (Digits.take n s) = true.
Proof.
  revert s. induction n as [|n IH]; intros s H; [reflexivity|].
  destruct s as [|c r]; [reflexivity|].
  cbn [Digits.take plain] in *. apply andb_prop in H as [Hc Hr].
  rewrite Hc, (IH r Hr). reflexivity.
Qed.

Lemma plain_drop (n : nat) (s : string) :
  plain s = true -> plain (Digits.drop n s) = true.
Proof.
  revert s. induction n as [|n IH]; intros s H; [exact H|].
  destruct s as [|c r]; [exact H|].
  cbn [Digits.drop plain] in *. apply andb_prop in H as [_ Hr].
  exact (IH r Hr).
Qed.

Lemma plain_layout (s n : Z) : plain (Number.layout s n) = true.
Proof.
  unfold Number.layout.
  repeat match goal with
  | |- context [if ?c then _ else _] => destruct c
  end;
  rewrite ?plain_app, ?plain_zeros, ?plain_of_Z,
    ?(plain_take _ _ (plain_of_Z _)), ?(plain_drop _ _ (plain_of_Z _));
  reflexivity.
Qed.

Lemma plain_toString (x : Number.t) : plain (Number.toString x) = true.
Proof.
  destruct x as [s|s| |s m e]; cbn [Number.toString]; try reflexivity.
  - destruct s; reflexivity.
  - destruct (Number.digits_exponent m e) as [d n].
    rewrite plain_app, plain_layout. destruct s; reflexivity.
Qed.

Lemma plain_toFixed1 (x : Number.t) : plain (Number.toFixed1 x) = true.
Proof.
  destruct x as [s|s| |s m e]; cbn [Number.toFixed1]; try reflexivity.
  - destruct s; reflexivity.
  - destruct (Number.fraction m e) as [p q].
    destruct (10 ^ 21 * q <=? p)%Z.
    + rewrite plain_app, (plain_toString (S754_finite false m e)).
      destruct s; reflexivity.
    + set (ds := if (String.length _ <=? 1)%nat then _ else _).
      assert (Hds : plain ds = true).
      { unfold ds. destruct (String.length _ <=? 1)%nat;
          rewrite ?plain_app, plain_of_Z; reflexivity. }
      rewrite !plain_app, (plain_take _ _ Hds), (plain_drop _ _ Hds).
      destruct s; reflexivity.
Qed.

Lemma high_byte_plain (c : ascii) :
  (63 <= Text.code c)%N -> markup_char c = false.
Proof.
  intros H. unfold markup_char.
  destruct (N.eqb_spec (Text.code c) 60), (N.eqb_spec (Text.code c) 62),
    (N.eqb_spec (Text.code c) 38); cbn; try reflexivity; lia.
Qed.

(** What [trim_start] does at the front of a text: nothing, or it drops
    one, two or three characters, none of them markup, and goes on. *)
Lemma trim_start_step (c : ascii) (r : string) :
  Text.trim_start (String c r) = String c r
  \/ exists r',
       Text.trim_start (String c r) = Text.trim_start r'
       /\ plain r' = plain (String c r)
       /\ (String.length r' < String.length (String c r))%nat.
Proof.
  destruct c as [[] [] [] [] [] [] [] []];
    try (left; reflexivity);
    try (right; exists r; split; [reflexivity|split; [reflexivity|cbn; lia]]).
  all: destruct r as [|c1 r1]; [left; reflexivity|].
  all: try (destruct r1 as [|c2 r2]; [left; reflexivity|]).
  all: cbn.
  all: match goal with
       | |- context [if ?b then Text.trim_start _ else _] =>
           destruct b eqn:E; [|left; reflexivity]
       end.
  all: repeat (rewrite orb_true_iff in E || rewrite andb_true_iff in E
               || rewrite N.eqb_eq in E || rewrite N.leb_le in E).
  all: right.
  all: match goal with
       | |- exists r', Text.trim_start ?x = _ /\ _ => exists x
       end.
  all: split; [reflexivity|split; [|lia]].
  all: rewrite ?(high_byte_plain c1), ?(high_byte_plain c2) by lia.
  all: reflexivity.
Qed.

Lemma trim_start_plain_upto (n : nat) (s : string) :
  (String.length s <= n)%nat -> plain (Text.trim_start s) = plain s.
Proof.
  revert s. induction n as [|n IH]; intros s H.
  - destruct s; [reflexivity | cbn in H; lia].
  - destruct s as [|c r]; [reflexivity|].
    destruct (trim_start_step c r) as [E | (r' & E & Hp & Hl)]; rewrite E.
    + reflexivity.
    + rewrite <- Hp. apply IH. cbn [String.length] in *. lia.
Qed.

Lemma trim_start_plain (s : string) : plain (Text.trim_start s) = plain s.
Proof. apply (trim_start_plain_upto (String.length s)). lia. Qed.

Lemma trim_end_plain (s : string) : plain (Text.trim_end s) = plain s.
Proof.
  induction s as [|c r IH]; [reflexivity|].
  cbn [Text.trim_end].
  destruct (Text.trim_start (String c r)) eqn:E.
  - rewrite <- (trim_start_plain (String c r)), E. reflexivity.
  - cbn [plain]. rewrite IH. reflexivity.
Qed.

Lemma trim_plain (s : string) : plain (Text.trim s) = plain s.
Proof. unfold Text.trim. rewrite trim_end_plain. apply trim_start_plain. Qed.

Lemma digit_plain (base : N) (c : ascii) (d : N) :
  Text.digit_in base c = Some d -> markup_char c = false.
Proof.
  unfold Text.digit_in, markup_char. intros H.
  destruct (N.eqb_spec (Text.code c) 60) as [E|_];
    [rewrite E in H; discriminate H|].
  destruct (N.eqb_spec (Text.code c) 62) as [E|_];
    [rewrite E in H; discriminate H|].
  destruct (N.eqb_spec (Text.code c) 38) as [E|_];
    [rewrite E in H; discriminate H|].
  reflexivity.
Qed.

(** The digits that [digits_prefix] reads are not markup. *)
Lemma digits_prefix_plain (base : N) (s : string) (acc : N) (cnt : Z)
  (v : N) (n : Z) (r : string) :
  Text.digits_prefix base s acc cnt = (v, n, r) -> plain s = plain r.
Proof.
  revert acc cnt. induction s as [|c s IH]; intros acc cnt H.
  - injection H as _ _ <-. reflexivity.
  - cbn [Text.digits_prefix] in H.
    destruct (Text.digit_in base c) as [d|] eqn:Hd.
    + cbn [plain]. rewrite (digit_plain _ _ _ Hd). exact (IH _ _ H).
    + injection H as _ _ <-. reflexivity.
Qed.

Lemma sign_plain (r : string) :
  plain (snd (match r with
              | String "+" r' => (false, r')
              | String "-" r' => (true, r')
              | _ => (false, r)
              end)) = plain r.
Proof.
  destruct r as [|c r']; [reflexivity|].
  destruct c as [[] [] [] [] [] [] [] []]; reflexivity.
Qed.

Lemma exponent_part_plain (s : string) (ex : Z) (r : string) :
  Text.exponent_part s = (ex, r) -> plain s = plain r.
Proof.
  unfold Text.exponent_part. destruct s as [|c r0].
  - intros [= _ <-]. reflexivity.
  - destruct ((Text.code c =? 101)%N || (Text.code c =? 69)%N) eqn:He;
      [|intros [= _ <-]; reflexivity].
    pose proof (sign_plain r0) as Hs.
    destruct (match r0 with
              | String "+" r' => (false, r')
              | String "-" r' => (true, r')
              | _ => (false, r0)
              end) as [neg r1].
    cbn [snd] in Hs.
    destruct (Text.digits_prefix 10 r1 0 0) as [[v cnt] r2] eqn:Hd.
    destruct (cnt =? 0)%Z; intros [= _ <-]; [reflexivity|].
    cbn [plain]. rewrite <- Hs, (digits_prefix_plain _ _ _ _ _ _ _ Hd).
    rewrite high_byte_plain; [reflexivity|].
    apply orb_prop in He as [He|He]; apply N.eqb_eq in He; lia.
Qed.

Lemma dot_plain (r1 : string) (i : N) :
  plain (snd (match r1 with
              | String "." r' => Text.digits_prefix 10 r' i 0
              | _ => (i, 0%Z, r1)
              end)) = plain r1.
Proof.
  destruct r1 as [|c r']; [reflexivity|].
  destruct c as [[] [] [] [] [] [] [] []]; try reflexivity.
  destruct (Text.digits_prefix 10 r' i 0) as [[m cf] r2] eqn:E.
  cbn [snd plain]. rewrite (digits_prefix_plain _ _ _ _ _ _ _ E).
  reflexivity.
Qed.

Lemma prefix_drop (p s : string) :
  String.prefix p s = true ->
  s = (p ++ Digits.drop (String.length p) s)%string.
Proof.
  revert s. induction p as [|a p IH]; intros s H; [reflexivity|].
  destruct s as [|b s]; [discriminate H|].
  cbn [String.prefix] in H. destruct (ascii_dec a b) as [->|]; [|discriminate H].
  cbn [String.length Digits.drop append]. f_equal. apply IH, H.
Qed.

Lemma unsigned_decimal_plain (neg : bool) (s : string) (x : Number.t)
  (r : string) :
  Text.unsigned_decimal neg s = Some (x, r) -> plain s = plain r.
Proof.
  unfold Text.unsigned_decimal.
  destruct (String.prefix "Infinity" s) eqn:Hp.
  - intros [= _ <-]. rewrite (prefix_drop _ _ Hp) at 1.
    rewrite plain_app. reflexivity.
  - destruct (Text.digits_prefix 10 s 0 0) as [[i ci] r1] eqn:Hi.
    pose proof (dot_plain r1 i) as Hdot.
    destruct (match r1 with
              | String "." r' => Text.digits_prefix 10 r' i 0
              | _ => (i, 0%Z, r1)
              end) as [[m cf] r2].
    cbn [snd] in Hdot.
    destruct ((ci =? 0)%Z && (cf =? 0)%Z); [discriminate|].
    destruct (Text.exponent_part r2) as [ex r3] eqn:He.
    intros [= _ <-].
    rewrite (digits_prefix_plain _ _ _ _ _ _ _ Hi), <- Hdot.
    apply (exponent_part_plain _ _ _ He).
Qed.

Lemma decimal_prefix_plain (s : string) (x : Number.t) (r : string) :
  Text.decimal_prefix s = Some (x, r) -> plain s = plain r.
Proof.
  destruct s as [|c s']; [apply unsigned_decimal_plain|].
  destruct c as [[] [] [] [] [] [] [] []]; cbn [Text.decimal_prefix];
    intros H; apply unsigned_decimal_plain in H; exact H.
Qed.

Lemma radix_literal_plain (s : string) (x : Number.t) (r : string) :
  Text.radix_literal s = Some (x, r) -> plain s = plain r.
Proof.
  destruct s as [|c0 s']; [discriminate|].
  destruct c0 as [[] [] [] [] [] [] [] []]; try discriminate.
  destruct s' as [|c s'']; [discriminate|].
  cbn [Text.radix_literal].
  set (n := Text.code c).
  assert (Hc : (63 <= n)%N -> markup_char c = false)
    by apply high_byte_plain.
  destruct (n =? 120)%N eqn:E1; [apply N.eqb_eq in E1|];
    [|destruct (n =? 88)%N eqn:E2; [apply N.eqb_eq in E2|];
      [|destruct (n =? 111)%N eqn:E3; [apply N.eqb_eq in E3|];
        [|destruct (n =? 79)%N eqn:E4; [apply N.eqb_eq in E4|];
          [|destruct (n =? 98)%N eqn:E5; [apply N.eqb_eq in E5|];
            [|destruct (n =? 66)%N eqn:E6; [apply N.eqb_eq in E6|]]]]]];
    cbn [orb]; try discriminate.
  all: match goal with
       | |- context [Text.digits_prefix ?b ?t 0%N 0%Z] =>
           destruct (Text.digits_prefix b t 0%N 0%Z) as [[v cnt] r']
             eqn:Hd
       end.
  all: destruct (cnt =? 0)%Z; [discriminate|].
  all: intros [= _ <-].
  all: cbn [plain]; rewrite Hc by lia.
  all: rewrite (digits_prefix_plain _ _ _ _ _ _ _ Hd); reflexivity.
Qed.

(** A text that ToNumber reads as a number holds no markup. *)
Lemma toNumber_plain (s : string) :
  Text.toNumber s <> Number.NaN -> plain s = true.
Proof.
  unfold Text.toNumber. rewrite <- (trim_plain s).
  destruct (Text.trim s) as [|c t] eqn:Et; [reflexivity|].
  destruct (Text.radix_literal (String c t)) as [[x [|c' r']]|] eqn:Er.
  - intros _. apply (radix_literal_plain _ _ _ Er).
  - destruct (Text.decimal_prefix (String c t)) as [[y [|c'' r'']]|] eqn:Ed;
      try (intros H; destruct H; reflexivity).
    intros _. apply (decimal_prefix_plain _ _ _ Ed).
  - destruct (Text.decimal_prefix (String c t)) as [[y [|c'' r'']]|] eqn:Ed;
      try (intros H; destruct H; reflexivity).
    intros _. apply (decimal_prefix_plain _ _ _ Ed).
Qed.

Lemma plain_cycle_value (v : value) :
  ToBoolean v && (lt_number v n21 || gt_number v n35) = true ->
  plain (ToString v) = true.
Proof.
  destruct v as [| |b|x|s]; try discriminate.
  - intros _. destruct b; reflexivity.
  - intros _. apply plain_toString.
  - intros H. cbn [ToString]. apply toNumber_plain. intros E.
    unfold lt_number, gt_number in H. cbn [ToNumber] in H. rewrite E in H.
    rewrite andb_comm in H. discriminate H.
Qed.

Ltac plain_texts :=
  unfold plain_tip;
  cbn [type icon title body tip_bmi_under tip_bmi_normal tip_bmi_over
       tip_bmi_obese tip_sleep_low tip_sleep_almost tip_sleep_good
       tip_sleep_over tip_hr_low tip_hr_normal tip_hr_high tip_cycle_active
       tip_cycle_length tip_consistency];
  rewrite ?plain_app, ?plain_toString, ?plain_toFixed1, ?plain_of_N;
  (split; [|split; [|split]]); reflexivity.

Lemma plain_bmi_tip (b : Number.t) : plain_tip (bmi_tip b).
Proof.
  unfold bmi_tip.
  repeat match goal with
  | |- context [if ?c then _ else _] => destruct c
  end; plain_texts.
Qed.

Lemma plain_sleep_tip (a : Number.t) : plain_tip (sleep_tip a).
Proof.
  unfold sleep_tip.
  repeat match goal with
  | |- context [if ?c then _ else _] => destruct c
  end; plain_texts.
Qed.

Lemma plain_hr_tip (hr : Number.t) : plain_tip (hr_tip hr).
Proof.
  unfold hr_tip.
  repeat match goal with
  | |- context [if ?c then _ else _] => destruct c
  end; plain_texts.
Qed.

Lemma plain_cycle_active : plain_tip tip_cycle_active.
Proof. plain_texts. Qed.

Lemma plain_cycle_length (v : value) :
  plain (ToString v) = true -> plain_tip (tip_cycle_length v).
Proof. intros H. unfold plain_tip. cbn [type icon title body tip_cycle_length].
  rewrite !plain_app, H. (split; [|split; [|split]]); reflexivity.
Qed.

Lemma plain_consistency (n : nat) : plain_tip (tip_consistency n).
Proof. plain_texts. Qed.

(** No tip carries markup: whatever the log holds, the type, the icon, the
    title and the body of every tip are free of the characters that open a
    tag or an entity or close a tag. The values put into a body are the
    texts of Numbers, and a cycleLength text that was read as a number. *)
Theorem tips_carry_no_markup (questLog : list Entry) (t : Tip) :
  In t (generatePersonalTips questLog) -> plain_tip t.
Proof.
  destruct questLog as [|first rest]; [intros []|].
  rewrite (generatePersonalTips_eq (first :: rest) (last rest first) eq_refl).
  generalize (last rest first). intros latest.
  cut (Forall plain_tip
         (bmi_part latest ++ sleep_part (first :: rest)
          ++ hr_part (first :: rest) ++ cycle_active_part latest
          ++ cycle_length_part latest ++ consistency_part (first :: rest))).
  { intros H Hin. rewrite Forall_forall in H. exact (H t Hin). }
  unfold bmi_part, sleep_part, hr_part, cycle_active_part, cycle_length_part,
    consistency_part.
  apply Forall_both; [|apply Forall_both; [|apply Forall_both;
    [|apply Forall_both; [|apply Forall_both]]]].
  - apply Forall_when, plain_bmi_tip.
  - destruct (avgSleep (first :: rest));
      [apply Forall_one, plain_sleep_tip | apply Forall_nil].
  - destruct (avgHR (first :: rest));
      [apply Forall_one, plain_hr_tip | apply Forall_nil].
  - apply Forall_when, plain_cycle_active.
  - destruct (ToBoolean (cycleTracking latest)); [|apply Forall_nil].
    cbn [andb].
    destruct (ToBoolean (cycleLength latest)
              && (lt_number (cycleLength latest) n21
                  || gt_number (cycleLength latest) n35)) eqn:E;
      [|apply Forall_nil].
    apply Forall_one, plain_cycle_length, plain_cycle_value, E.
  - apply Forall_when, plain_consistency.
Qed.

Lemma tips_carry_no_markup_witness :
  plain_tip (tip_cycle_length (JStr " 0x30 ")).
Proof.
  apply (tips_carry_no_markup
           [with_cycle (JBool true) (JStr " 0x30 ")]).
  vm_compute. right. left. reflexivity.
Defined.

(** * The page *)

Lemma append_assoc (a b c : string) :
  ((a ++ b) ++ c)%string = (a ++ b ++ c)%string.
Proof.
  induction a as [|x a IH]; [reflexivity|].
  cbn [append]. rewrite IH. reflexivity.
Qed.

Lemma append_empty_r (a : string) : (a ++ "")%string = a.
Proof.
  induction a as [|x a IH]; [reflexivity|].
  cbn [append]. rewrite IH. reflexivity.
Qed.

Lemma add_card_append (html : string) (tip : Tip) :
  add_card html tip = (html ++ card_html tip)%string.
Proof.
  unfold card_html, add_card. cbv zeta.
  rewrite !append_assoc. reflexivity.
Qed.

Lemma add_general_append (html : string) (gt : General.tip) :
  add_general html gt = (html ++ general_html gt)%string.
Proof.
  unfold general_html, add_general. cbv zeta.
  rewrite !append_assoc. reflexivity.
Qed.

Lemma fold_add_card (tips : list Tip) (html : string) :
  fold_left add_card tips html
  = (html ++ join (map card_html tips))%string.
Proof.
  revert html. induction tips as [|t tips IH]; intros html.
  - cbn. rewrite append_empty_r. reflexivity.
  - cbn [fold_left map join fold_right]. rewrite IH, add_card_append.
    apply append_assoc.
Qed.

Lemma fold_add_general (gts : list General.tip) (html : string) :
  fold_left add_general gts html
  = (html ++ join (map general_html gts))%string.
Proof.
  revert html. induction gts as [|g gts IH]; intros html.
  - cbn. rewrite append_empty_r. reflexivity.
  - cbn [fold_left map join fold_right]. rewrite IH, add_general_append.
    apply append_assoc.
Qed.

Lemma html_sections (personalTips : list Tip) :
  tips_html personalTips
  = (personal_section personalTips ++ general_section
     ++ healer_section)%string.
Proof.
  unfold tips_html, personal_section, general_section, healer_section,
    personal_header, empty_state_html.
  cbv zeta. rewrite fold_add_general.
  destruct personalTips as [|t tips].
  - rewrite !append_assoc. reflexivity.
  - rewrite fold_add_card. rewrite !append_assoc. reflexivity.
Qed.

(** The text of the page is three sections one after the other: the cards
    of the personal tips in their order under their heading, or the empty
    state when there is no tip; the general guide; the healer block. The
    last two are the same whatever the tips are. *)
Theorem tips_html_sections (personalTips : list Tip) :
  tips_html personalTips
  = (personal_section personalTips ++ general_section
     ++ healer_section)%string
  /\ personal_section personalTips
     = match personalTips with
       | [] => empty_state_html
       | _ => (personal_header ++ join (map card_html personalTips))%string
       end.
Proof.
  split; [apply html_sections|]. destruct personalTips; reflexivity.
Qed.

Lemma no_mark_before_cards (rest : string) :
  String.prefix empty_state_mark (personal_header ++ rest)%string = false.
Proof. reflexivity. Qed.

Lemma empty_mark_iff (personalTips : list Tip) :
  String.prefix empty_state_mark (tips_html personalTips) = true
  <-> personalTips = [].
Proof.
  rewrite html_sections. destruct personalTips as [|t tips].
  - split; [reflexivity|]. intros _. vm_compute. reflexivity.
  - cbn [personal_section]. rewrite append_assoc, no_mark_before_cards.
    split; discriminate.
Qed.

(** The page opens with the empty state exactly when there is no personal
    tip; for the tips of a log, exactly when the function returned none. *)
Theorem empty_state_iff_no_tips :
  (forall personalTips : list Tip,
      String.prefix empty_state_mark (tips_html personalTips) = true
      <-> personalTips = [])
  /\ String.prefix empty_state_mark
       (tips_html (generatePersonalTips [])) = true
  /\ String.prefix empty_state_mark
       (tips_html (generatePersonalTips log_all)) = false.
Proof.
  split; [exact empty_mark_iff|]. split; vm_compute; reflexivity.
Qed.

Lemma tips_of_three (questLog : list Entry) :
  (3 <= List.length questLog)%nat -> generatePersonalTips questLog <> [].
Proof.
  intros Hlen. destruct questLog as [|first rest]; [cbn in Hlen; lia|].
  rewrite (generatePersonalTips_eq (first :: rest) (last rest first) eq_refl).
  unfold consistency_part.
  replace (3 <=? List.length (first :: rest))%nat with true
    by (symmetry; apply Nat.leb_le; exact Hlen).
  intros H. repeat (apply app_eq_nil in H; destruct H as [_ H]).
  discriminate H.
Qed.

(** When nothing is stored under healthQuestLog, or the empty text is,
    [loadTips] does not parse anything: the page gets the empty state, the
    general guide and the healer block, and the store is left as it was. *)
Theorem loadTips_without_log
  (JSON_parse : string -> option (list Entry)) (page : Page)
  (content : string) :
  tipsContent page = Some content ->
  healthQuestLog page = None \/ healthQuestLog page = Some ""%string ->
  loadTips JSON_parse page
  = Some {| tipsContent := Some (tips_html []);
            healthQuestLog := healthQuestLog page |}
  /\ String.prefix empty_state_mark (tips_html []) = true.
Proof.
  intros Hc Hd. split; [|apply empty_mark_iff; reflexivity].
  unfold loadTips. rewrite Hc. destruct Hd as [-> | ->]; reflexivity.
Qed.

Lemma loadTips_without_log_witness :
  loadTips (fun _ => None)
    {| tipsContent := Some "Loading"%string; healthQuestLog := Some ""%string |}
  = Some {| tipsContent := Some (tips_html []);
            healthQuestLog := Some ""%string |}.
Proof.
  apply (loadTips_without_log (fun _ => None)
           {| tipsContent := Some "Loading"%string;
              healthQuestLog := Some ""%string |} "Loading").
  - reflexivity.
  - right. reflexivity.
Defined.



(** With a stored log that parses, the page is the text built from the tips
    of that log; a log of 3 entries or more never gets the empty state. *)
Theorem loadTips_shows_tips
  (JSON_parse : string -> option (list Entry)) (page : Page)
  (content text : string) (questLog : list Entry) :
  tipsContent page = Some content ->
  healthQuestLog page = Some text ->
  text <> ""%string ->
  JSON_parse text = Some questLog ->
  loadTips JSON_parse page
  = Some {| tipsContent := Some (tips_html (generatePersonalTips questLog));
            healthQuestLog := Some text |}
  /\ ((3 <= List.length questLog)%nat ->
      String.prefix empty_state_mark
        (tips_html (generatePersonalTips questLog)) = false).
Proof.
  intros Hc Hd Ht Hp. split.
  - unfold loadTips, stored_log. rewrite Hc, Hd.
    destruct text as [|c text]; [destruct Ht; reflexivity|].
    rewrite Hp. reflexivity.
  - intros Hlen.
    destruct (String.prefix empty_state_mark
                (tips_html (generatePersonalTips questLog))) eqn:Hm;
      [|reflexivity].
    apply empty_mark_iff in Hm.
    destruct (tips_of_three questLog Hlen Hm).
Qed.

Lemma loadTips_shows_tips_witness :
  String.prefix empty_state_mark
    (tips_html (generatePersonalTips [blank; blank; blank])) = false.
Proof.
  apply (loadTips_shows_tips (fun _ => Some [blank; blank; blank])
           {| tipsContent := Some ""%string;
              healthQuestLog := Some "[{},{},{}]"%string |}
           "" "[{},{},{}]" [blank; blank; blank]);
    [reflexivity | reflexivity | discriminate | reflexivity | cbn; lia].
Defined.

(** ** What the page holds *)

Lemma prefix_append_more (s a b : string) :
  String.prefix s a = true -> String.prefix s (a ++ b)%string = true.
Proof.
  revert a. induction s as [|x s IH]; intros a H;
    [destruct (a ++ b)%string; reflexivity|].
  destruct a as [|y a]; [discriminate H|].
  cbn [append String.prefix] in *.
  destruct (ascii_dec x y); [apply IH, H | discriminate H].
Qed.

Lemma contains_append_l (s a b : string) :
  contains s b = true -> contains s (a ++ b)%string = true.
Proof.
  intros H. induction a as [|c a IH]; [exact H|].
  cbn [append contains]. rewrite IH. apply orb_true_r.
Qed.

Lemma contains_append_r (s a b : string) :
  contains s a = true -> contains s (a ++ b)%string = true.
Proof.
  induction a as [|c a IH]; intros H.
  - cbn [contains] in H. apply contains_prefix.
    apply (prefix_append_more s "" b H).
  - cbn [append contains] in *. apply orb_prop in H as [H|H].
    + pose proof (prefix_append_more s (String c a) b H) as P.
      cbn [append] in P. rewrite P. reflexivity.
    + rewrite (IH H). apply orb_true_r.
Qed.

Lemma contains_head (s post : string) : contains s (s ++ post)%string = true.
Proof. apply contains_prefix, prefix_append. Qed.

Lemma contains_card (t : Tip) (tips : list Tip) :
  In t tips -> contains (card_html t) (join (map card_html tips)) = true.
Proof.
  induction tips as [|x tips IH]; [intros []|].
  cbn [map join fold_right]. intros [->|H].
  - apply contains_head.
  - apply contains_append_l, IH, H.
Qed.

(** Every personal tip is on the page: its card occurs in the text, and the
    card holds the type, the icon, the title and the body of the tip as
    they are, with no escaping. *)
Theorem page_shows_every_tip (personalTips : list Tip) (t : Tip) :
  In t personalTips ->
  contains (card_html t) (tips_html personalTips) = true
  /\ contains (type t) (card_html t) = true
  /\ contains (icon t) (card_html t) = true
  /\ contains (title t) (card_html t) = true
  /\ contains (body t) (card_html t) = true.
Proof.
  intros Hin. split.
  - rewrite html_sections. destruct personalTips as [|x tips]; [destruct Hin|].
    cbn [personal_section]. apply contains_append_r, contains_append_l.
    apply contains_card, Hin.
  - unfold card_html, add_card. cbv zeta. rewrite !append_assoc.
    repeat split;
      repeat (first [apply contains_head | apply contains_append_l]).
Qed.

Lemma page_shows_every_tip_witness :
  contains (card_html tip_cycle_active)
    (tips_html (generatePersonalTips [with_cycle (JBool true) JUndefined]))
  = true.
Proof.
  apply (page_shows_every_tip
           (generatePersonalTips [with_cycle (JBool true) JUndefined])
           tip_cycle_active).
  vm_compute. left. reflexivity.
Defined.

(** ** The heart-rate average *)

(** avgHR is the mean of parseFloat(heartRate) over the entries whose
    heartRate is truthy, summed from +0 in the order of the log, and it is
    null exactly when no entry has a truthy heartRate; the same holds of
    avgSleep and sleepHours. *)
Theorem averages_null_iff (questLog : list Entry) :
  avgHR questLog = mean (readings heartRate ToBoolean questLog)
  /\ (avgHR questLog = None
      <-> Forall (fun e => ToBoolean (heartRate e) = false) questLog)
  /\ (avgSleep questLog = None
      <-> Forall (fun e => ToBoolean (sleepHours e) = false) questLog).
Proof.
  split; [apply avgHR_mean|].
  rewrite avgHR_mean, avgSleep_mean, !mean_none, !readings_nil.
  split; reflexivity.
Qed.
